(** * Flare FTSO provider monitor: a shallow embedding of [agent.py] and [main.py]

    The two Python modules are glue around three external collaborators: the
    browser-automation agent, the pydantic validator and the [requests] HTTP
    client.  The embedding keeps the control flow of the source (exceptions,
    [try]/[except], the [while True] loop) and makes every external answer an
    explicit input:

    - Python floats are IEEE binary64 numbers, the kernel's [float];
    - an exception is a class name with its message; a computation returns
      [Ok v] or [Raise e] together with the events it produced (log records,
      HTTP posts, agent runs, sleeps), in order;
    - only exceptions derived from [Exception] are modelled.  [KeyboardInterrupt],
      [SystemExit] and task cancellation derive from [BaseException], pass
      through every [except Exception] of the source and stand for the external
      interruption of the process, which is outside this model;
    - the constructors [ChatOpenAI], [BrowserConfig], [Browser], [Controller]
      and [Agent] are taken to succeed. *)

From Stdlib Require Import ZArith List String Ascii Bool Lia Floats.
From Stdlib Require Import DecimalString.
Import ListNotations.

Open Scope string_scope.

(** ** Python values *)

(** An exception object: its class and [str(e)]. *)
Record exn : Type := PyExn { exn_class : string; exn_msg : string }.

Definition str_exn (e : exn) : string := exn_msg e.

Inductive result (A : Type) : Type :=
| Ok (a : A)
| Raise (e : exn).

Arguments Ok {A} a.
Arguments Raise {A} e.

Inductive level : Type := INFO | WARNING | ERROR.

(** The JSON body of the Telegram request. *)
Record payload : Type := Payload {
  chat_id : string;
  text : string;
  parse_mode : string
}.

(** What a run leaves behind, in order. *)
Inductive event : Type :=
| Log (l : level) (msg : string)                            (* [logger.info/warning/error] *)
| AgentRun (task : string)                                  (* [agent.run()], a browser session *)
| HttpPost (url : string) (json : payload) (timeout : Z)    (* [requests.post] *)
| Sleep (seconds : float).                                  (* [asyncio.sleep] *)

(** ** The monad of the embedding: an outcome with the events produced so far *)

Definition M (A : Type) : Type := (result A * list event)%type.

Definition ret {A} (a : A) : M A := (Ok a, []).

Definition raise {A} (e : exn) : M A := (Raise e, []).

Definition emit (ev : event) : M unit := (Ok tt, [ev]).

Definition bind {A B} (m : M A) (k : A -> M B) : M B :=
  match m with
  | (Ok a, evs) => let (r, evs') := k a in (r, (evs ++ evs')%list)
  | (Raise e, evs) => (Raise e, evs)
  end.

(** [try: m except Exception as e: h e] *)
Definition try_except {A} (m : M A) (h : exn -> M A) : M A :=
  match m with
  | (Ok a, evs) => (Ok a, evs)
  | (Raise e, evs) => let (r, evs') := h e in (r, (evs ++ evs')%list)
  end.

Declare Scope py_scope.
Delimit Scope py_scope with py.
Notation "x <- m ;; k" := (bind m (fun x => k))
  (at level 61, m at next level, right associativity) : py_scope.
Notation "m ;;; k" := (bind m (fun _ => k))
  (at level 61, right associativity) : py_scope.
Open Scope py_scope.

Definition outcome {A} (m : M A) : result A := fst m.
Definition events {A} (m : M A) : list event := snd m.

Definition log (l : level) (msg : string) : M unit := emit (Log l msg).

(** ** Strings *)

Definition nl : string := String "010" "".
Definition squote : string := String "039" "".
Definition dquote : string := String "034" "".
Definition backquote : string := String "096" "".

(** U+26A0 U+FE0F, the warning sign of the alert lines, in UTF-8. *)
Definition warning_sign : string :=
  String "226" (String "154" (String "160" (String "239" (String "184" (String "143" ""))))).

(** [sep.join(l)] *)
Fixpoint join (sep : string) (l : list string) : string :=
  match l with
  | [] => ""
  | [s] => s
  | s :: rest => s ++ sep ++ join sep rest
  end.

(** [str.upper()] on ASCII text. *)
Definition upper_ascii (c : ascii) : ascii :=
  let n := nat_of_ascii c in
  if (97 <=? n)%nat && (n <=? 122)%nat then ascii_of_nat (n - 32) else c.

Fixpoint upper (s : string) : string :=
  match s with
  | EmptyString => EmptyString
  | String c rest => String (upper_ascii c) (upper rest)
  end.

(** [str(n)] for an [int]. *)
Definition str_int (z : Z) : string := NilZero.string_of_int (Z.to_int z).

(** [str(l)] for a list of strings that need no escaping (no quote, no
    backslash, no unprintable character): each item in single quotes. *)
Definition str_list (l : list string) : string :=
  "[" ++ join ", " (map (fun s => squote ++ s ++ squote) l) ++ "]".

(** Truth value of an optional string: [None] and [""] are falsy. *)
Definition truthy (o : option string) : bool :=
  match o with
  | Some s => negb (s =? "")
  | None => false
  end.

(** [a or b] on optional strings. *)
Definition py_or (a b : option string) : option string :=
  if truthy a then a else b.

(** ** Python numbers *)

Open Scope float_scope.

(** [float(n)] for an [int]: the nearest binary64 (ties to even), and
    [OverflowError] beyond the largest finite one. *)
Definition float_of_int (z : Z) : M float :=
  let f := SF2Prim (binary_normalize prec emax z 0 false) in
  if is_infinity f then raise (PyExn "OverflowError" "int too large to convert to float")
  else ret f.

(** [max(a, b)] keeps its first argument unless the second is greater. *)
Definition py_max (a b : float) : float := if a <? b then b else a.

(** ** The environment and dictionaries *)

Definition environ : Type := list (string * string).

(** [os.getenv(key)] *)
Fixpoint getenv (env : environ) (key : string) : option string :=
  match env with
  | [] => None
  | (k, v) :: rest => if (k =? key)%string then Some v else getenv rest key
  end.

(** [os.getenv(key, default)] *)
Definition getenv_default (env : environ) (key default : string) : string :=
  match getenv env key with
  | Some v => v
  | None => default
  end.

(** A [dict] from strings to floats, in insertion order. *)
Definition dict : Type := list (string * float).

(** [d[key] = v] *)
Fixpoint dict_set (d : dict) (key : string) (v : float) : dict :=
  match d with
  | [] => [(key, v)]
  | (k, x) :: rest =>
      if (k =? key)%string then (k, v) :: rest else (k, x) :: dict_set rest key v
  end.

(** [d[key]] *)
Fixpoint dict_get (d : dict) (key : string) : M float :=
  match d with
  | [] => raise (PyExn "KeyError" (squote ++ key ++ squote))
  | (k, x) :: rest => if (k =? key)%string then ret x else dict_get rest key
  end.

(** ** Reference instances of the runtime

    The embedding of the two modules takes [float(s)], [int(s)], [str(x)] and
    [format(x, '.2f')] as parameters.  The instances below serve to run it on
    concrete inputs.  The two parsers read plain decimal literals (a sign,
    digits, and for [float] one point) and treat every other string as
    malformed, as Python does for the strings they are applied to in this
    file; Python also accepts blanks around the literal, underscores
    between digits, exponents, [inf] and [nan]. *)

Module PyRef.

(** The value of a string of ASCII digits, [None] when another character occurs. *)
Fixpoint digits_value (s : string) (acc : Z) : option Z :=
  match s with
  | EmptyString => Some acc
  | String c rest =>
      let n := nat_of_ascii c in
      if (48 <=? n)%nat && (n <=? 57)%nat
      then digits_value rest (10 * acc + Z.of_nat (n - 48))
      else None
  end.

(** A leading sign: [true] for a minus. *)
Definition split_sign (s : string) : bool * string :=
  match s with
  | String "-" rest => (true, rest)
  | String "+" rest => (false, rest)
  | _ => (false, s)
  end.

(** The text before the first point, and the text after it when there is one. *)
Fixpoint split_point (s : string) : string * option string :=
  match s with
  | EmptyString => (EmptyString, None)
  | String "." rest => (EmptyString, Some rest)
  | String c rest => let (a, b) := split_point rest in (String c a, b)
  end.

Definition py_int (s : string) : result Z :=
  let (neg, body) := split_sign s in
  match body, digits_value body 0 with
  | String _ _, Some v => Ok (if neg then - v else v)%Z
  | _, _ => Raise (PyExn "ValueError"
                     ("invalid literal for int() with base 10: " ++ squote ++ s ++ squote))
  end.

(** The binary64 nearest to [m / 10^k], ties to even. *)
Definition decimal_to_float (neg : bool) (m : Z) (k : nat) : float :=
  match m with
  | Zpos p =>
      SF2Prim (SFdiv prec emax (S754_finite neg p 0)
                 (S754_finite false (Z.to_pos (10 ^ Z.of_nat k)) 0))
  | _ => if neg then neg_zero else zero
  end.

Definition py_float (s : string) : result float :=
  let malformed :=
    Raise (PyExn "ValueError" ("could not convert string to float: " ++ squote ++ s ++ squote)) in
  let (neg, body) := split_sign s in
  let (ip, fp) := split_point body in
  let fp := match fp with Some f => f | None => EmptyString end in
  match (ip ++ fp), digits_value (ip ++ fp) 0 with
  | String _ _, Some m => Ok (decimal_to_float neg m (String.length fp))
  | _, _ => malformed
  end.

(** [num / den] rounded to the nearest integer, ties to even ([0 < den]). *)
Definition round_half_even (num den : Z) : Z :=
  let q := (num / den)%Z in
  let r := (num mod den)%Z in
  match (2 * r ?= den)%Z with
  | Lt => q
  | Gt => (q + 1)%Z
  | Eq => if Z.even q then q else (q + 1)%Z
  end.

(** [m * 2^e * 10^k] rounded to the nearest integer. *)
Definition scaled (m : positive) (e : Z) (k : nat) : Z :=
  let n := (Zpos m * 10 ^ Z.of_nat k)%Z in
  if (0 <=? e)%Z then (n * 2 ^ e)%Z else round_half_even n (2 ^ (- e)).

Fixpoint zeros (n : nat) : string :=
  match n with
  | O => EmptyString
  | S n' => String "0" (zeros n')
  end.

(** The digits of [r] with a point before the last [k] of them. *)
Definition positional (r : Z) (k : nat) : string :=
  let d := str_int r in
  let d := zeros (S k - String.length d) ++ d in
  let n := (String.length d - k)%nat in
  substring 0 n d ++ "." ++ substring n k d.

(** The least number of decimals, from [k] on, whose nearest decimal reads
    back as [m * 2^e]. *)
Fixpoint shortest (x : float) (m : positive) (e : Z) (k fuel : nat) : string :=
  match fuel with
  | O => positional (scaled m e k) k
  | S fuel' =>
      let r := scaled m e k in
      if Leibniz.eqb (decimal_to_float false r k) x
      then (if Nat.eqb k 0 then str_int r ++ ".0" else positional r k)
      else shortest x m e (S k) fuel'
  end.

(** [str(x)] in positional notation.  Python writes an exponent outside
    [1e-4 <= |x| < 1e16]; there this instance differs. *)
Definition str_float (x : float) : string :=
  match Prim2SF x with
  | S754_nan => "nan"
  | S754_infinity s => if s then "-inf" else "inf"
  | S754_zero s => if s then "-0.0" else "0.0"
  | S754_finite s m e =>
      (if s then "-" else "") ++ shortest (abs x) m e 0 400
  end.

(** [format(x, '.2f')] *)
Definition fmt_2f (x : float) : string :=
  match Prim2SF x with
  | S754_nan => "nan"
  | S754_infinity s => if s then "-inf" else "inf"
  | S754_zero s => if s then "-0.00" else "0.00"
  | S754_finite s m e =>
      (if s then "-" else "") ++ positional (scaled m e 2) 2
  end.
End PyRef.

(** ** agent.py: the data model *)

Record RewardEpochInfo : Type := {
  primary : float;
  secondary : float
}.

Record WebpageInfo : Type := {
  availability_6h : float;
  availability_24h : float;
  success_rate_6h : RewardEpochInfo;
  success_rate_24h : RewardEpochInfo
}.

(** ** The external collaborators, as inputs *)

(** [history = await agent.run(); result = history.final_result()]: either
    call raises, or the final result is [None] or a text. *)
Inductive agent_outcome : Type :=
| AgentRaises (e : exn)
| AgentFinal (final_result : option string).

(** [requests.post(url, json=payload, timeout=10)]: it raises (timeout,
    connection error, ...) or returns a response. *)
Inductive post_outcome : Type :=
| PostRaises (e : exn)
| PostResponse (status_code : Z) (reason : string).

(** What one pass of the loop body reads from outside. *)
Record cycle : Type := {
  t_start : float;                 (* [time.time()], main.py line 134 *)
  agent_result : agent_outcome;
  now : string;                    (* [datetime.now().strftime('%Y-%m-%d %H:%M:%S')] *)
  post_result : post_outcome;      (* the answer to the one post of the cycle, if it is made *)
  t_end : float                    (* [time.time()], main.py line 138 *)
}.

Definition lift {A} (r : result A) : M A := (r, []).

(** [response.raise_for_status()] of [requests]: an [HTTPError] for the
    status codes 400 to 599, nothing otherwise. *)
Definition raise_for_status (url : string) (status_code : Z) (reason : string) : M unit :=
  if (400 <=? status_code)%Z && (status_code <? 500)%Z then
    raise (PyExn "HTTPError"
             (str_int status_code ++ " Client Error: " ++ reason ++ " for url: " ++ url))
  else if (500 <=? status_code)%Z && (status_code <? 600)%Z then
    raise (PyExn "HTTPError"
             (str_int status_code ++ " Server Error: " ++ reason ++ " for url: " ++ url))
  else ret tt.

(** [str(x)] for an optional string inside an f-string. *)
Definition str_opt (o : option string) : string :=
  match o with
  | Some s => s
  | None => "None"
  end.

(** main.py, lines 24-34 *)
Definition DEFAULT_THRESHOLDS : dict :=
  [ ("min_availability_6h", 90.0);
    ("min_availability_24h", 90.0);
    ("min_success_rate_6h_primary", 20.0);
    ("min_success_rate_6h_secondary", 85.0);
    ("min_success_rate_24h_primary", 20.0);
    ("min_success_rate_24h_secondary", 85.0) ].

Definition DEFAULT_MONITORING_INTERVAL : Z := 15 * 60.

(** The threshold set of the specification: six named minimums, and the
    dictionary that holds them. *)
Record ThresholdSet : Type := {
  min_availability_6h : float;
  min_availability_24h : float;
  min_success_rate_6h_primary : float;
  min_success_rate_6h_secondary : float;
  min_success_rate_24h_primary : float;
  min_success_rate_24h_secondary : float
}.

Definition dict_of_thresholds (ts : ThresholdSet) : dict :=
  [ ("min_availability_6h", min_availability_6h ts);
    ("min_availability_24h", min_availability_24h ts);
    ("min_success_rate_6h_primary", min_success_rate_6h_primary ts);
    ("min_success_rate_6h_secondary", min_success_rate_6h_secondary ts);
    ("min_success_rate_24h_primary", min_success_rate_24h_primary ts);
    ("min_success_rate_24h_secondary", min_success_rate_24h_secondary ts) ].

(** ** Sample inputs

    An environment, two documents of the agent and the cycles that read
    them, to run the embedding on.  [model_validate_json] here stands in for
    pydantic: it knows the two documents and refuses every other text. *)

Module Sample.

Definition address : string := "0x5A7b2c9D".

Definition env : environ :=
  [ ("PROVIDER_ADDRESS", address);
    ("TELEGRAM_BOT_TOKEN", "4815162342:token");
    ("TELEGRAM_CHAT_ID", "-100200300") ].

(** The same without the bot token. *)
Definition env_no_token : environ :=
  [ ("PROVIDER_ADDRESS", address); ("TELEGRAM_CHAT_ID", "-100200300") ].

(** The same without the monitored address. *)
Definition env_no_address : environ :=
  [ ("TELEGRAM_BOT_TOKEN", "4815162342:token"); ("TELEGRAM_CHAT_ID", "-100200300") ].

Definition healthy : WebpageInfo :=
  {| availability_6h := 99.5;
     availability_24h := 99.25;
     success_rate_6h := {| primary := 48.75; secondary := 95.875 |};
     success_rate_24h := {| primary := 46.5; secondary := 95.75 |} |}.

(** 6h availability and the 24h secondary success rate are below the
    default thresholds. *)
Definition degraded : WebpageInfo :=
  {| availability_6h := 85.0;
     availability_24h := 99.25;
     success_rate_6h := {| primary := 48.75; secondary := 95.875 |};
     success_rate_24h := {| primary := 46.5; secondary := 80.5 |} |}.

Definition key (name : string) : string := dquote ++ name ++ dquote ++ ": ".

Definition document (d : WebpageInfo) : string :=
  "{" ++ key "availability_6h" ++ PyRef.str_float (availability_6h d)
    ++ ", " ++ key "availability_24h" ++ PyRef.str_float (availability_24h d)
    ++ ", " ++ key "success_rate_6h"
    ++ "{" ++ key "primary" ++ PyRef.str_float (primary (success_rate_6h d))
    ++ ", " ++ key "secondary" ++ PyRef.str_float (secondary (success_rate_6h d)) ++ "}"
    ++ ", " ++ key "success_rate_24h"
    ++ "{" ++ key "primary" ++ PyRef.str_float (primary (success_rate_24h d))
    ++ ", " ++ key "secondary" ++ PyRef.str_float (secondary (success_rate_24h d)) ++ "}"
    ++ "}".

Definition model_validate_json (s : string) : result WebpageInfo :=
  if (s =? document healthy)%string then Ok healthy
  else if (s =? document degraded)%string then Ok degraded
  else Raise (PyExn "ValidationError" "1 validation error for WebpageInfo").

(** The defaults of main.py as a threshold set. *)
Definition default_thresholds : ThresholdSet :=
  {| min_availability_6h := 90.0;
     min_availability_24h := 90.0;
     min_success_rate_6h_primary := 20.0;
     min_success_rate_6h_secondary := 85.0;
     min_success_rate_24h_primary := 20.0;
     min_success_rate_24h_secondary := 85.0 |}.

Definition cycle_of (ag : agent_outcome) (net : post_outcome) (t0 t1 : float) : cycle :=
  {| t_start := t0;
     agent_result := ag;
     now := "2025-03-01 12:00:00";
     post_result := net;
     t_end := t1 |}.

(** A healthy reading, fetched in 100 seconds. *)
Definition cycle_healthy : cycle :=
  cycle_of (AgentFinal (Some (document healthy))) (PostResponse 200 "OK") 1000 1100.

(** A degraded reading, fetched in 100 seconds; Telegram accepts the alert. *)
Definition cycle_degraded : cycle :=
  cycle_of (AgentFinal (Some (document degraded))) (PostResponse 200 "OK") 1000 1100.

(** The agent fails after 100 seconds. *)
Definition cycle_agent_down : cycle :=
  cycle_of (AgentRaises (PyExn "TimeoutError" "Navigation timed out"))
    (PostResponse 200 "OK") 1000 1100.

(** The agent answers with a text that is no document. *)
Definition cycle_garbled : cycle :=
  cycle_of (AgentFinal (Some "I could not find the page")) (PostResponse 200 "OK") 1000 1100.

(** A healthy reading that took 950 seconds. *)
Definition cycle_slow : cycle :=
  cycle_of (AgentFinal (Some (document healthy))) (PostResponse 200 "OK") 1000 1950.

End Sample.

Section Monitor.

(** The Python runtime and pydantic: [float(s)] and [int(s)] on a string
    ([ValueError] when it is malformed), [str(x)] and [format(x, '.2f')] on
    a float, and [WebpageInfo.model_validate_json]. *)
Variable py_float : string -> result float.
Variable py_int : string -> result Z.
Variable str_float : float -> string.
Variable fmt_2f : float -> string.
Variable model_validate_json : string -> result WebpageInfo.

(** The process environment, after [load_dotenv()]. *)
Variable env : environ.

(** *** agent.py *)

Definition provider_address : option string := getenv env "PROVIDER_ADDRESS".
Definition network : string := getenv_default env "NETWORK" "flare".

(** [repr] and [str] of the pydantic models. *)
Definition repr_RewardEpochInfo (r : RewardEpochInfo) : string :=
  "RewardEpochInfo(primary=" ++ str_float (primary r)
    ++ ", secondary=" ++ str_float (secondary r) ++ ")".

Definition str_WebpageInfo (d : WebpageInfo) : string :=
  "availability_6h=" ++ str_float (availability_6h d)
    ++ " availability_24h=" ++ str_float (availability_24h d)
    ++ " success_rate_6h=" ++ repr_RewardEpochInfo (success_rate_6h d)
    ++ " success_rate_24h=" ++ repr_RewardEpochInfo (success_rate_24h d).

(** The f-string of lines 53-83. *)
Definition task (current_provider_address : option string) : string :=
  join nl
    [ "";
      "          Navigate to 'https://" ++ network
        ++ "-systems-explorer.flare.network/providers/ftso/"
        ++ str_opt current_provider_address
        ++ "' and return availability and success rates.";
      "          example:";
      "";
      "          Availability";
      "          Success Rate";
      "          LAST 6 HOURS";
      "          99.87 %";
      "          LAST 6 HOURS";
      "          48.80 % / 95.87 %";
      "          LAST 24 HOURS";
      "          99.45 %";
      "          LAST 24 HOURS";
      "          46.60 % / 95.85 %";
      "          LAST 6 HOURS";
      "          48.80 % / 95.87 %";
      "";
      "          The output should be in the following format:";
      "          {";
      "            " ++ dquote ++ "availability_6h" ++ dquote ++ ": 90.87,";
      "            " ++ dquote ++ "availability_24h" ++ dquote ++ ": 99.45,";
      "            " ++ dquote ++ "success_rate_6h" ++ dquote ++ ": {";
      "              " ++ dquote ++ "primary" ++ dquote ++ ": 48.80,";
      "              " ++ dquote ++ "secondary" ++ dquote ++ ": 95.87";
      "            },";
      "            " ++ dquote ++ "success_rate_24h" ++ dquote ++ ": {";
      "              " ++ dquote ++ "primary" ++ dquote ++ ": 46.60,";
      "              " ++ dquote ++ "secondary" ++ dquote ++ ": 95.85";
      "            }";
      "          }";
      "        " ].

(** Lines 91-92: the run of the agent, one browser session. *)
Definition agent_run (task : string) (ag : agent_outcome) : M (option string) :=
  emit (AgentRun task) ;;;
  match ag with
  | AgentRaises e => raise e
  | AgentFinal r => ret r
  end.

Definition get_provider_monitor_data
    (custom_provider_address : option string) (ag : agent_outcome) : M WebpageInfo :=
  let current_provider_address := py_or custom_provider_address provider_address in
  if negb (truthy current_provider_address) then
    raise (PyExn "ValueError"
             "Provider address not provided and PROVIDER_ADDRESS not set in environment")
  else
    try_except
      (result <- agent_run (task current_provider_address) ag ;;
       if truthy result then
         try_except
           (parsed_result <- lift (model_validate_json (str_opt result)) ;;
            ret parsed_result)
           (fun parse_error =>
              raise (PyExn "Exception"
                       ("Error parsing result: " ++ str_exn parse_error
                          ++ ". Raw result: " ++ str_opt result)))
       else
         raise (PyExn "Exception" "No result was returned from the agent"))
      (fun e =>
         raise (PyExn "Exception"
                  ("An error occurred while getting provider data: " ++ str_exn e))).

(** *** main.py *)

Definition TELEGRAM_BOT_TOKEN : option string := getenv env "TELEGRAM_BOT_TOKEN".
Definition TELEGRAM_CHAT_ID : option string := getenv env "TELEGRAM_CHAT_ID".

(** Line 54: the one network call. *)
Definition requests_post (url : string) (json : payload) (timeout : Z)
    (net : post_outcome) : M (Z * string) :=
  emit (HttpPost url json timeout) ;;;
  match net with
  | PostRaises e => raise e
  | PostResponse status_code reason => ret (status_code, reason)
  end.

Definition send_telegram_alert (message : string) (net : post_outcome) : M bool :=
  if negb (truthy TELEGRAM_BOT_TOKEN) || negb (truthy TELEGRAM_CHAT_ID) then
    log WARNING "Telegram bot token or chat ID not configured. Cannot send alert." ;;;
    ret false
  else
    let url := "https://api.telegram.org/bot" ++ str_opt TELEGRAM_BOT_TOKEN ++ "/sendMessage" in
    let payload :=
      {| chat_id := str_opt TELEGRAM_CHAT_ID; text := message; parse_mode := "Markdown" |} in
    try_except
      (response <- requests_post url payload 10 net ;;
       raise_for_status url (fst response) (snd response) ;;;
       log INFO ("Telegram alert sent successfully: " ++ message) ;;;
       ret true)
      (fun e =>
         log ERROR ("Failed to send Telegram alert: " ++ str_exn e) ;;;
         ret false).

(** The loop of lines 65-67, over the items that remain. *)
Fixpoint get_thresholds_from (items : dict) (thresholds : dict) : M dict :=
  match items with
  | [] => ret thresholds
  | (key, default_value) :: rest =>
      let env_value := getenv env (upper key) in
      v <- (if truthy env_value then lift (py_float (str_opt env_value))
            else ret default_value) ;;
      get_thresholds_from rest (dict_set thresholds key v)
  end.

Definition get_thresholds : M dict := get_thresholds_from DEFAULT_THRESHOLDS [].

(** The f-string of an alert line. *)
Definition alert_line (label : string) (value threshold : float) : string :=
  warning_sign ++ " " ++ label ++ " is low: " ++ str_float value
    ++ "% (threshold: " ++ str_float threshold ++ "%)".

(** One [if] statement of lines 81-98: the metric [value] against
    [thresholds[key]], with [alerts.append] of the line that names it. *)
Definition check_metric (thresholds : dict) (alerts : list string)
    (value : float) (key label : string) : M (list string) :=
  t <- dict_get thresholds key ;;
  if value <? t then
    t' <- dict_get thresholds key ;;
    ret (app alerts [alert_line label value t'])
  else ret alerts.

(** Lines 78-98: the six checks, in the order of the source. *)
Definition evaluate (provider_data : WebpageInfo) (thresholds : dict) : M (list string) :=
  alerts <- ret [] ;;
  alerts <- check_metric thresholds alerts (availability_6h provider_data)
              "min_availability_6h" "6h Availability" ;;
  alerts <- check_metric thresholds alerts (availability_24h provider_data)
              "min_availability_24h" "24h Availability" ;;
  alerts <- check_metric thresholds alerts (primary (success_rate_6h provider_data))
              "min_success_rate_6h_primary" "6h Primary Success Rate" ;;
  alerts <- check_metric thresholds alerts (secondary (success_rate_6h provider_data))
              "min_success_rate_6h_secondary" "6h Secondary Success Rate" ;;
  alerts <- check_metric thresholds alerts (primary (success_rate_24h provider_data))
              "min_success_rate_24h_primary" "24h Primary Success Rate" ;;
  alerts <- check_metric thresholds alerts (secondary (success_rate_24h provider_data))
              "min_success_rate_24h_secondary" "24h Secondary Success Rate" ;;
  ret alerts.

(** The evaluation policy in the words of the specification: the six
    metrics in their fixed order, each with its label and its threshold, and
    the lines of those that are strictly below their threshold. *)
Definition metrics_in_order (d : WebpageInfo) (ts : ThresholdSet)
    : list (string * float * float) :=
  [ ("6h Availability", availability_6h d, min_availability_6h ts);
    ("24h Availability", availability_24h d, min_availability_24h ts);
    ("6h Primary Success Rate", primary (success_rate_6h d), min_success_rate_6h_primary ts);
    ("6h Secondary Success Rate", secondary (success_rate_6h d),
       min_success_rate_6h_secondary ts);
    ("24h Primary Success Rate", primary (success_rate_24h d),
       min_success_rate_24h_primary ts);
    ("24h Secondary Success Rate", secondary (success_rate_24h d),
       min_success_rate_24h_secondary ts) ].

Definition below (m : string * float * float) : bool :=
  let '(_, value, threshold) := m in value <? threshold.

Definition violation_line (m : string * float * float) : string :=
  let '(label, value, threshold) := m in alert_line label value threshold.

Definition violations (d : WebpageInfo) (ts : ThresholdSet) : list string :=
  map violation_line (filter below (metrics_in_order d ts)).

(** A metric strictly above its threshold. *)
Definition above (m : string * float * float) : bool :=
  let '(_, value, threshold) := m in threshold <? value.

(** Lines 102-104: the text of the alert. *)
Definition alert_message (custom_provider_address : option string)
    (alerts : list string) (now : string) : string :=
  let monitored_address :=
    py_or custom_provider_address (Some (getenv_default env "PROVIDER_ADDRESS" "Unknown")) in
  let message :=
    "*FLARE PROVIDER ALERT*" ++ nl ++ nl ++ "Provider: " ++ backquote
      ++ str_opt monitored_address ++ backquote ++ nl ++ nl ++ join nl alerts in
  message ++ nl ++ nl ++ "_Timestamp: " ++ now ++ "_".

Definition check_provider_data (custom_provider_address : option string) (c : cycle)
    : M (option WebpageInfo * list string) :=
  thresholds <- get_thresholds ;;
  try_except
    (provider_data <- get_provider_monitor_data custom_provider_address (agent_result c) ;;
     log INFO ("Provider data retrieved successfully: " ++ str_WebpageInfo provider_data) ;;;
     alerts <- evaluate provider_data thresholds ;;
     match alerts with
     | _ :: _ =>
         send_telegram_alert (alert_message custom_provider_address alerts (now c))
           (post_result c) ;;;
         log WARNING ("Alerts detected: " ++ str_list alerts)
     | [] => log INFO "All provider metrics are within acceptable thresholds"
     end ;;;
     ret (Some provider_data, alerts))
    (fun e =>
       let error_message := "Error checking provider data: " ++ str_exn e in
       log ERROR error_message ;;;
       send_telegram_alert ("*FLARE PROVIDER MONITOR ERROR*" ++ nl ++ nl ++ error_message)
         (post_result c) ;;;
       ret (None, [error_message])).

(** Line 139: [max(0, interval - elapsed)].  The integer [0] that [max]
    returns when the difference is not positive is written [0.0]: the two
    are equal as numbers and the source only compares and sleeps on it. *)
Definition sleep_time (interval : Z) (elapsed : float) : M float :=
  fi <- float_of_int interval ;;
  ret (py_max 0 (fi - elapsed)).

(** Lines 134-145: the body of the [try] of the loop. *)
Definition loop_body (interval : Z) (provider_address : option string) (c : cycle) : M unit :=
  let start_time := t_start c in
  check_provider_data provider_address c ;;;
  let elapsed := t_end c - start_time in
  sleep_time <- sleep_time interval elapsed ;;
  if 0 <? sleep_time then
    log INFO ("Waiting " ++ fmt_2f sleep_time ++ " seconds until next check...") ;;;
    emit (Sleep sleep_time)
  else
    log WARNING ("Monitor check took " ++ fmt_2f elapsed
                   ++ "s, longer than the interval (" ++ str_int interval ++ "s)").

(** Lines 133-149: one pass of the [while True]. *)
Definition iteration (interval : Z) (provider_address : option string) (c : cycle) : M unit :=
  try_except
    (loop_body interval provider_address c)
    (fun e =>
       log ERROR ("Error in monitor loop: " ++ str_exn e) ;;;
       emit (Sleep 60)).

(** How a call stands after finitely many passes of its loop: it has
    returned, or it is still in the loop. *)
Inductive status : Type := Returned | Running.

(** [while True] observed for [fuel] passes, the first one reading
    [cycles k]: the loop has no exit of its own, so what remains after the
    last observed pass is the loop again. *)
Fixpoint while_true (interval : Z) (provider_address : option string)
    (cycles : nat -> cycle) (k fuel : nat) : M status :=
  match fuel with
  | O => ret Running
  | S fuel' =>
      iteration interval provider_address (cycles k) ;;;
      while_true interval provider_address cycles (S k) fuel'
  end.

(** Line 120: [int(os.getenv("MONITORING_INTERVAL", DEFAULT_MONITORING_INTERVAL))];
    [int] of the default, an [int] already, is the default. *)
Definition monitoring_interval : M Z :=
  match getenv env "MONITORING_INTERVAL" with
  | Some s => lift (py_int s)
  | None => ret DEFAULT_MONITORING_INTERVAL
  end.

Definition monitor_loop (startup_post : post_outcome) (cycles : nat -> cycle)
    (fuel : nat) : M status :=
  interval <- monitoring_interval ;;
  let provider_address := getenv env "PROVIDER_ADDRESS" in
  if negb (truthy provider_address) then
    let error_msg := "PROVIDER_ADDRESS environment variable is not set!" in
    log ERROR error_msg ;;;
    send_telegram_alert ("*FLARE PROVIDER MONITOR ERROR*" ++ nl ++ nl ++ error_msg)
      startup_post ;;;
    ret Returned
  else
    log INFO ("Starting Flare FTSO provider monitoring for address: "
                ++ str_opt provider_address) ;;;
    log INFO ("Monitoring interval: " ++ str_int interval ++ " seconds") ;;;
    while_true interval provider_address cycles 0 fuel.

(** Lines 151-162; the [except KeyboardInterrupt] clause is the external
    interruption and has no counterpart here. *)
Definition main (startup_post : post_outcome) (cycles : nat -> cycle) (fuel : nat) : M status :=
  try_except
    (monitor_loop startup_post cycles fuel)
    (fun e =>
       log ERROR ("Monitoring terminated due to error: " ++ str_exn e) ;;;
       ret Returned).

(** *** agent.py, the entry point *)

(** [str] of a [RewardEpochInfo]: the fields, without the class name. *)
Definition str_RewardEpochInfo (r : RewardEpochInfo) : string :=
  "primary=" ++ str_float (primary r) ++ " secondary=" ++ str_float (secondary r).

(** agent.py, lines 106-116: [main] of the module run as a script.  It
    returns nothing; the value here is what it printed, one string per call
    of [print]. *)
Definition agent_main (ag : agent_outcome) : M (list string) :=
  try_except
    (provider_data <- get_provider_monitor_data None ag ;;
     ret [ nl ++ "Scraping Results (structured):";
           "Availability 6h: " ++ str_float (availability_6h provider_data);
           "Availability 24h: " ++ str_float (availability_24h provider_data);
           "Success Rate 6h: " ++ str_RewardEpochInfo (success_rate_6h provider_data);
           "Success Rate 24h: " ++ str_RewardEpochInfo (success_rate_24h provider_data) ])
    (fun e => ret ["An error occurred: " ++ str_exn e]).

(** *** Vocabulary of the statements *)

(** Both credentials are set (neither absent nor empty). *)
Definition configured : bool := truthy TELEGRAM_BOT_TOKEN && truthy TELEGRAM_CHAT_ID.

Definition telegram_url : string :=
  "https://api.telegram.org/bot" ++ str_opt TELEGRAM_BOT_TOKEN ++ "/sendMessage".

Definition telegram_payload (message : string) : payload :=
  {| chat_id := str_opt TELEGRAM_CHAT_ID; text := message; parse_mode := "Markdown" |}.

Definition is_post (ev : event) : bool :=
  match ev with
  | HttpPost _ _ _ => true
  | _ => false
  end.

(** The network calls of a run. *)
Definition posts (evs : list event) : list event := filter is_post evs.

(** The text that a post carries. *)
Definition text_of_post (ev : event) : string :=
  match ev with
  | HttpPost _ json _ => text json
  | _ => ""
  end.

(** What [requests] reports by raising: the call itself failed, or the
    status is one that [raise_for_status] refuses. *)
Definition delivery_failed (net : post_outcome) : bool :=
  match net with
  | PostRaises _ => true
  | PostResponse status_code _ => (400 <=? status_code)%Z && (status_code <? 600)%Z
  end.

(** The error of line 42. *)
Definition no_address_error : exn :=
  PyExn "ValueError"
    "Provider address not provided and PROVIDER_ADDRESS not set in environment".

(** The error of line 103 around the message of the failure it wraps. *)
Definition fetch_error (msg : string) : exn :=
  PyExn "Exception" ("An error occurred while getting provider data: " ++ msg).

(** The message of line 99. *)
Definition parse_error_message (parse_error : exn) (raw : string) : string :=
  "Error parsing result: " ++ str_exn parse_error ++ ". Raw result: " ++ raw.

(** What the loop of [get_thresholds] assigns to the key of one item. *)
Definition threshold_value (item : string * float) : result float :=
  let env_value := getenv env (upper (fst item)) in
  if truthy env_value then py_float (str_opt env_value) else Ok (snd item).

(** The message of line 113 and the text of the error alert of line 115. *)
Definition check_error_message (e : exn) : string :=
  "Error checking provider data: " ++ str_exn e.

Definition error_alert (error_message : string) : string :=
  "*FLARE PROVIDER MONITOR ERROR*" ++ nl ++ nl ++ error_message.

(** Lines 101-108: what follows the evaluation. *)
Definition dispatch_events (custom_provider_address : option string) (c : cycle)
    (alerts : list string) : list event :=
  match alerts with
  | [] => [Log INFO "All provider metrics are within acceptable thresholds"]
  | _ :: _ =>
      (events (send_telegram_alert (alert_message custom_provider_address alerts (now c))
                 (post_result c))
         ++ [Log WARNING ("Alerts detected: " ++ str_list alerts)])%list
  end.

(** The durations of the sleeps of a run, in order. *)
Fixpoint slept (evs : list event) : list float :=
  match evs with
  | [] => []
  | Sleep seconds :: rest => seconds :: slept rest
  | _ :: rest => slept rest
  end.

(** Lines 141-145: what the loop does with the sleep time. *)
Definition wait_events (interval : Z) (elapsed sleep_time : float) : list event :=
  if 0 <? sleep_time then
    [Log INFO ("Waiting " ++ fmt_2f sleep_time ++ " seconds until next check...");
     Sleep sleep_time]
  else
    [Log WARNING ("Monitor check took " ++ fmt_2f elapsed
                    ++ "s, longer than the interval (" ++ str_int interval ++ "s)")].

(** Lines 148-149: what the loop does with an exception. *)
Definition fallback_events (e : exn) : list event :=
  [Log ERROR ("Error in monitor loop: " ++ str_exn e); Sleep 60].

(** Lines 124 and 129-130: the records of the start of [monitor_loop]. *)
Definition missing_address_message : string :=
  "PROVIDER_ADDRESS environment variable is not set!".

Definition startup_events (interval : Z) : list event :=
  [Log INFO ("Starting Flare FTSO provider monitoring for address: "
               ++ str_opt (getenv env "PROVIDER_ADDRESS"));
   Log INFO ("Monitoring interval: " ++ str_int interval ++ " seconds")].

Definition is_agent_run (ev : event) : bool :=
  match ev with
  | AgentRun _ => true
  | _ => false
  end.

(** The browser sessions of a run. *)
Definition agent_runs (evs : list event) : list event := filter is_agent_run evs.

(** The page of a provider on the explorer of the configured network. *)
Definition provider_url (address : string) : string :=
  "https://" ++ network ++ "-systems-explorer.flare.network/providers/ftso/" ++ address.

(** A metric that cannot be strictly below its threshold: it is the
    threshold itself, or one of the two is not a number. *)
Definition at_threshold_or_nan (m : string * float * float) : bool :=
  let '(_, value, threshold) := m in
  Leibniz.eqb value threshold || is_nan value || is_nan threshold.

(** The dictionary after the assignments [thresholds[key] = v] of a run of
    the loop. *)
Definition assign_all (keys : list string) (vs : list float) (acc : dict) : dict :=
  fold_left (fun d kv => dict_set d (fst kv) (snd kv)) (combine keys vs) acc.

(** ** Facts *)

(** *** Floats *)

Lemma SFcompare_Lt_Gt (x y : spec_float) :
  SFcompare x y = Some Lt -> SFcompare y x = Some Gt.
Proof.
  destruct x as [sx|sx| |sx mx ex], y as [sy|sy| |sy my ey]; simpl;
    try discriminate; try (destruct sx; try destruct sy; simpl; congruence).
  change (PosDef.Pos.compare_cont Eq mx my) with (Pos.compare mx my).
  change (PosDef.Pos.compare_cont Eq my mx) with (Pos.compare my mx).
  rewrite (Z.compare_antisym ex ey), (Pos.compare_antisym mx my).
  destruct sx, sy; simpl; try congruence;
    destruct (ex ?= ey)%Z; simpl; try congruence;
    destruct (mx ?= my)%positive; simpl; congruence.
Qed.

Lemma ltb_asym (x y : float) : (x <? y) = true -> (y <? x) = false.
Proof.
  rewrite !ltb_spec. unfold SFltb. intros H.
  destruct (SFcompare (Prim2SF x) (Prim2SF y)) as [[ | | ]|] eqn:E; try discriminate.
  now rewrite (SFcompare_Lt_Gt _ _ E).
Qed.

Lemma ltb_leb (x y : float) : (x <? y) = true -> (x <=? y) = true.
Proof.
  rewrite ltb_spec, leb_spec. unfold SFltb, SFleb.
  destruct (SFcompare _ _) as [[ | | ]|]; congruence.
Qed.

(** *** Strings *)

Lemma append_assoc (a b c : string) : (a ++ b) ++ c = a ++ (b ++ c).
Proof. induction a as [|ch a IH]; simpl; [reflexivity|now rewrite IH]. Qed.

(** *** The monad *)

Lemma bind_Ok {A B} (a : A) (evs : list event) (k : A -> M B) :
  bind (Ok a, evs) k = (outcome (k a), (evs ++ events (k a))%list).
Proof. unfold bind, outcome, events. now destruct (k a). Qed.

Lemma bind_Raise {A B} (e : exn) (evs : list event) (k : A -> M B) :
  bind (Raise e, evs) k = (Raise e, evs).
Proof. reflexivity. Qed.

Lemma try_except_Ok {A} (a : A) (evs : list event) (h : exn -> M A) :
  try_except (Ok a, evs) h = (Ok a, evs).
Proof. reflexivity. Qed.

Lemma try_except_Raise {A} (e : exn) (evs : list event) (h : exn -> M A) :
  try_except (Raise e, evs) h = (outcome (h e), (evs ++ events (h e))%list).
Proof. unfold try_except, outcome, events. now destruct (h e). Qed.

Lemma M_eta {A} (m : M A) : m = (outcome m, events m).
Proof. now destruct m. Qed.

(** *** The alert dispatcher *)

#[local] Arguments raise_for_status : simpl never.
#[local] Arguments String.append : simpl never.

Lemma raise_for_status_outcome (url : string) (status_code : Z) (reason : string) :
  (delivery_failed (PostResponse status_code reason) = false ->
     raise_for_status url status_code reason = (Ok tt, []))
  /\ (delivery_failed (PostResponse status_code reason) = true ->
        exists e, raise_for_status url status_code reason = (Raise e, [])).
Proof.
  unfold raise_for_status, delivery_failed.
  destruct (400 <=? status_code)%Z eqn:H4, (status_code <? 500)%Z eqn:H5,
    (500 <=? status_code)%Z eqn:H50, (status_code <? 600)%Z eqn:H6;
    simpl; split; intros H; try discriminate; try reflexivity;
    try (eexists; reflexivity); lia.
Qed.

Lemma send_telegram_alert_skipped (message : string) (net : post_outcome) :
  configured = false ->
  send_telegram_alert message net
  = (Ok false,
     [Log WARNING "Telegram bot token or chat ID not configured. Cannot send alert."]).
Proof.
  unfold configured, send_telegram_alert. intros H.
  destruct (truthy TELEGRAM_BOT_TOKEN), (truthy TELEGRAM_CHAT_ID);
    try discriminate; reflexivity.
Qed.

Lemma send_telegram_alert_delivered (message : string) (net : post_outcome) :
  configured = true -> delivery_failed net = false ->
  send_telegram_alert message net
  = (Ok true,
     [HttpPost telegram_url (telegram_payload message) 10;
      Log INFO ("Telegram alert sent successfully: " ++ message)]).
Proof.
  unfold configured, send_telegram_alert. intros H Hnet.
  destruct (truthy TELEGRAM_BOT_TOKEN), (truthy TELEGRAM_CHAT_ID); try discriminate.
  destruct net as [e|status_code reason]; [discriminate|].
  destruct (raise_for_status_outcome
              ("https://api.telegram.org/bot" ++ str_opt TELEGRAM_BOT_TOKEN ++ "/sendMessage")
              status_code reason) as [Hok _].
  simpl. rewrite (Hok Hnet). reflexivity.
Qed.

Lemma send_telegram_alert_failed (message : string) (net : post_outcome) :
  configured = true -> delivery_failed net = true ->
  exists e,
    send_telegram_alert message net
    = (Ok false,
       [HttpPost telegram_url (telegram_payload message) 10;
        Log ERROR ("Failed to send Telegram alert: " ++ str_exn e)]).
Proof.
  unfold configured, send_telegram_alert. intros H Hnet.
  destruct (truthy TELEGRAM_BOT_TOKEN), (truthy TELEGRAM_CHAT_ID); try discriminate.
  destruct net as [e|status_code reason].
  - exists e. reflexivity.
  - destruct (raise_for_status_outcome
                ("https://api.telegram.org/bot" ++ str_opt TELEGRAM_BOT_TOKEN ++ "/sendMessage")
                status_code reason) as [_ Hko].
    destruct (Hko Hnet) as [e He]. exists e. simpl. rewrite He. reflexivity.
Qed.

(** The dispatcher returns a boolean whatever happens. *)
Lemma send_telegram_alert_returns (message : string) (net : post_outcome) :
  exists b, outcome (send_telegram_alert message net) = Ok b.
Proof.
  destruct configured eqn:Hc.
  - destruct (delivery_failed net) eqn:Hd.
    + destruct (send_telegram_alert_failed message net Hc Hd) as [e He].
      rewrite He. now exists false.
    + rewrite (send_telegram_alert_delivered message net Hc Hd). now exists true.
  - rewrite (send_telegram_alert_skipped message net Hc). now exists false.
Qed.

(** *** The data fetcher *)

Lemma fetch_no_address (custom : option string) (ag : agent_outcome) :
  truthy (py_or custom provider_address) = false ->
  get_provider_monitor_data custom ag = (Raise no_address_error, []).
Proof.
  unfold get_provider_monitor_data. intros H. rewrite H. reflexivity.
Qed.

Lemma fetch_agent_raises (custom : option string) (e : exn) :
  truthy (py_or custom provider_address) = true ->
  get_provider_monitor_data custom (AgentRaises e)
  = (Raise (fetch_error (str_exn e)), [AgentRun (task (py_or custom provider_address))]).
Proof.
  unfold get_provider_monitor_data. intros H. rewrite H. reflexivity.
Qed.

Lemma fetch_no_result (custom r : option string) :
  truthy (py_or custom provider_address) = true -> truthy r = false ->
  get_provider_monitor_data custom (AgentFinal r)
  = (Raise (fetch_error "No result was returned from the agent"),
     [AgentRun (task (py_or custom provider_address))]).
Proof.
  unfold get_provider_monitor_data. intros H Hr. rewrite H. simpl. rewrite Hr.
  reflexivity.
Qed.

Lemma fetch_parse_error (custom r : option string) (parse_error : exn) :
  truthy (py_or custom provider_address) = true -> truthy r = true ->
  model_validate_json (str_opt r) = Raise parse_error ->
  get_provider_monitor_data custom (AgentFinal r)
  = (Raise (fetch_error (parse_error_message parse_error (str_opt r))),
     [AgentRun (task (py_or custom provider_address))]).
Proof.
  unfold get_provider_monitor_data. intros H Hr Hv. rewrite H. simpl. rewrite Hr.
  unfold lift. rewrite Hv. reflexivity.
Qed.

Lemma fetch_validated (custom r : option string) (d : WebpageInfo) :
  truthy (py_or custom provider_address) = true -> truthy r = true ->
  model_validate_json (str_opt r) = Ok d ->
  get_provider_monitor_data custom (AgentFinal r)
  = (Ok d, [AgentRun (task (py_or custom provider_address))]).
Proof.
  unfold get_provider_monitor_data. intros H Hr Hv. rewrite H. simpl. rewrite Hr.
  unfold lift. rewrite Hv. reflexivity.
Qed.

(** A snapshot comes out only as the validator made it. *)
Lemma fetch_Ok_inv (custom : option string) (ag : agent_outcome) (d : WebpageInfo) :
  outcome (get_provider_monitor_data custom ag) = Ok d ->
  exists s, ag = AgentFinal (Some s) /\ s <> "" /\ model_validate_json s = Ok d
            /\ truthy (py_or custom provider_address) = true.
Proof.
  destruct (truthy (py_or custom provider_address)) eqn:H.
  - destruct ag as [e|r].
    + rewrite (fetch_agent_raises _ e H). discriminate.
    + destruct (truthy r) eqn:Hr.
      * destruct (model_validate_json (str_opt r)) as [d'|pe] eqn:Hv.
        -- rewrite (fetch_validated _ _ _ H Hr Hv). simpl. intros [= <-].
           destruct r as [s|]; [|discriminate]. exists s. simpl in *.
           repeat split; trivial. intros ->. discriminate.
        -- rewrite (fetch_parse_error _ _ _ H Hr Hv). discriminate.
      * rewrite (fetch_no_result _ _ H Hr). discriminate.
  - rewrite (fetch_no_address _ ag H). discriminate.
Qed.

(** The fetcher makes no network call of its own and logs nothing: it runs
    the agent at most once. *)
Lemma fetch_events (custom : option string) (ag : agent_outcome) :
  events (get_provider_monitor_data custom ag) = []
  \/ events (get_provider_monitor_data custom ag)
     = [AgentRun (task (py_or custom provider_address))].
Proof.
  destruct (truthy (py_or custom provider_address)) eqn:H.
  - right. destruct ag as [e|r].
    + now rewrite (fetch_agent_raises _ e H).
    + destruct (truthy r) eqn:Hr.
      * destruct (model_validate_json (str_opt r)) as [d'|pe] eqn:Hv.
        -- now rewrite (fetch_validated _ _ _ H Hr Hv).
        -- now rewrite (fetch_parse_error _ _ _ H Hr Hv).
      * now rewrite (fetch_no_result _ _ H Hr).
  - left. now rewrite (fetch_no_address _ ag H).
Qed.

(** *** Thresholds *)

Lemma get_thresholds_from_events (items acc : dict) :
  events (get_thresholds_from items acc) = [].
Proof.
  revert acc. induction items as [|[key default_value] rest IH]; intros acc; simpl.
  - reflexivity.
  - destruct (truthy (getenv env (upper key))).
    + unfold lift. destruct (py_float _) as [v|e]; [|reflexivity].
      rewrite bind_Ok. simpl. apply IH.
    + unfold ret. rewrite bind_Ok. simpl. apply IH.
Qed.

Lemma get_thresholds_from_step (key : string) (default_value : float) (rest acc : dict) :
  get_thresholds_from ((key, default_value) :: rest) acc
  = match threshold_value (key, default_value) with
    | Ok v => get_thresholds_from rest (dict_set acc key v)
    | Raise e => (Raise e, [])
    end.
Proof.
  simpl. unfold threshold_value. simpl.
  destruct (truthy (getenv env (upper key))).
  - unfold lift. destruct (py_float _) as [v|e]; [|reflexivity].
    rewrite bind_Ok. simpl. symmetry. apply M_eta.
  - unfold ret. rewrite bind_Ok. simpl. symmetry. apply M_eta.
Qed.

Lemma get_thresholds_from_Ok (items acc d : dict) :
  outcome (get_thresholds_from items acc) = Ok d ->
  exists vs,
    Forall2 (fun item v => threshold_value item = Ok v) items vs
    /\ d = assign_all (map fst items) vs acc.
Proof.
  revert acc. induction items as [|[key default_value] rest IH]; intros acc.
  - simpl. intros [= <-]. exists []. split; [constructor|reflexivity].
  - rewrite get_thresholds_from_step.
    destruct (threshold_value (key, default_value)) as [v|e] eqn:Hv; [|discriminate].
    intros H. destruct (IH _ H) as (vs & Hvs & ->).
    exists (v :: vs). split; [now constructor|reflexivity].
Qed.

Lemma get_thresholds_from_Raise (items acc : dict) (e : exn) :
  outcome (get_thresholds_from items acc) = Raise e ->
  Exists (fun item => threshold_value item = Raise e) items.
Proof.
  revert acc. induction items as [|[key default_value] rest IH]; intros acc.
  - discriminate.
  - rewrite get_thresholds_from_step.
    destruct (threshold_value (key, default_value)) as [v|e'] eqn:Hv.
    + intros H. right. exact (IH _ H).
    + simpl. intros [= <-]. now left.
Qed.

Lemma get_thresholds_from_total (items acc : dict) (vs : list float) :
  Forall2 (fun item v => threshold_value item = Ok v) items vs ->
  get_thresholds_from items acc = (Ok (assign_all (map fst items) vs acc), []).
Proof.
  intros H. revert acc. induction H as [|[key default_value] v rest vs Hv _ IH]; intros acc.
  - reflexivity.
  - rewrite get_thresholds_from_step, Hv. apply IH.
Qed.

(** What [get_thresholds] returns holds exactly the six keys, each with the
    value the loop gave it. *)
Lemma get_thresholds_shape (d : dict) :
  outcome get_thresholds = Ok d ->
  exists ts,
    d = dict_of_thresholds ts
    /\ Forall2 (fun item v => threshold_value item = Ok (snd v))
         DEFAULT_THRESHOLDS (dict_of_thresholds ts).
Proof.
  unfold get_thresholds. intros H.
  destruct (get_thresholds_from_Ok _ _ _ H) as (vs & Hvs & ->).
  unfold DEFAULT_THRESHOLDS in Hvs.
  repeat match goal with
         | Hf : Forall2 _ (_ :: _) _ |- _ => inversion Hf; subst; clear Hf
         | Hf : Forall2 _ [] _ |- _ => inversion Hf; subst; clear Hf
         end.
  match goal with
  | |- exists ts, assign_all _ [?a; ?b; ?c; ?d; ?e; ?f] _ = _ /\ _ =>
      exists {| min_availability_6h := a; min_availability_24h := b;
                min_success_rate_6h_primary := c; min_success_rate_6h_secondary := d;
                min_success_rate_24h_primary := e; min_success_rate_24h_secondary := f |}
  end.
  split; [reflexivity|].
  unfold DEFAULT_THRESHOLDS, dict_of_thresholds; simpl.
  repeat constructor; assumption.
Qed.

Lemma get_thresholds_events : events get_thresholds = [].
Proof. apply get_thresholds_from_events. Qed.

(** *** Evaluation *)

#[local] Arguments alert_line : simpl never.

Lemma evaluate_violations (d : WebpageInfo) (ts : ThresholdSet) :
  evaluate d (dict_of_thresholds ts) = (Ok (violations d ts), []).
Proof.
  unfold evaluate, check_metric, violations, metrics_in_order, dict_of_thresholds.
  cbn.
  repeat match goal with
         | |- context [ ?a <? ?b ] => destruct (a <? b)
         end; reflexivity.
Qed.

(** *** One check *)

Lemma get_thresholds_eta : get_thresholds = (outcome get_thresholds, []).
Proof. rewrite (M_eta get_thresholds) at 1. now rewrite get_thresholds_events. Qed.

Lemma check_provider_data_thresholds_raise (custom : option string) (c : cycle) (e : exn) :
  outcome get_thresholds = Raise e ->
  check_provider_data custom c = (Raise e, []).
Proof.
  intros H. unfold check_provider_data. rewrite get_thresholds_eta, H. reflexivity.
Qed.

Lemma check_provider_data_fetched (custom : option string) (c : cycle)
    (ts : ThresholdSet) (d : WebpageInfo) (evs : list event) :
  outcome get_thresholds = Ok (dict_of_thresholds ts) ->
  get_provider_monitor_data custom (agent_result c) = (Ok d, evs) ->
  check_provider_data custom c
  = (Ok (Some d, violations d ts),
     (evs ++ Log INFO ("Provider data retrieved successfully: " ++ str_WebpageInfo d)
          :: dispatch_events custom c (violations d ts))%list).
Proof.
  intros Ht Hf. unfold check_provider_data.
  rewrite get_thresholds_eta, Ht, bind_Ok, Hf. cbn [app].
  rewrite bind_Ok. unfold log, emit. rewrite bind_Ok, evaluate_violations, bind_Ok.
  unfold dispatch_events.
  destruct (violations d ts) as [|a alerts] eqn:Hv.
  - reflexivity.
  - destruct (send_telegram_alert_returns
                (alert_message custom (a :: alerts) (now c)) (post_result c)) as [b Hb].
    rewrite (M_eta (send_telegram_alert _ _)), Hb.
    cbn. rewrite !app_nil_r. reflexivity.
Qed.

Lemma check_provider_data_fetch_failed (custom : option string) (c : cycle)
    (thresholds : dict) (e : exn) (evs : list event) :
  outcome get_thresholds = Ok thresholds ->
  get_provider_monitor_data custom (agent_result c) = (Raise e, evs) ->
  check_provider_data custom c
  = (Ok (None, [check_error_message e]),
     (evs ++ Log ERROR (check_error_message e)
          :: events (send_telegram_alert (error_alert (check_error_message e))
                       (post_result c)))%list).
Proof.
  intros Ht Hf. unfold check_provider_data.
  rewrite get_thresholds_eta, Ht, bind_Ok, Hf. cbn [app].
  rewrite bind_Raise, try_except_Raise.
  fold (check_error_message e). fold (error_alert (check_error_message e)).
  destruct (send_telegram_alert_returns
              (error_alert (check_error_message e)) (post_result c)) as [b Hb].
  rewrite (M_eta (send_telegram_alert _ _)), Hb.
  cbn. rewrite !app_nil_r. reflexivity.
Qed.

(** *** The sleep time *)

Lemma float_of_int_events (z : Z) : events (float_of_int z) = [].
Proof. unfold float_of_int. now destruct (is_infinity _). Qed.

Lemma py_max_0_not_negative (x : float) : (py_max 0 x <? 0) = false.
Proof.
  unfold py_max. destruct (0 <? x) eqn:H.
  - now apply ltb_asym.
  - reflexivity.
Qed.

Lemma py_max_0_at_least_0 (x : float) : (0 <=? py_max 0 x) = true.
Proof.
  unfold py_max. destruct (0 <? x) eqn:H.
  - now apply ltb_leb.
  - reflexivity.
Qed.

Lemma py_max_0_upper_bound (x : float) : (py_max 0 x <? x) = false.
Proof.
  unfold py_max. destruct (0 <? x) eqn:H.
  - destruct (x <? x) eqn:Hx; [|reflexivity]. now rewrite (ltb_asym _ _ Hx) in Hx.
  - exact H.
Qed.

Lemma sleep_time_Ok (interval : Z) (elapsed s : float) :
  outcome (sleep_time interval elapsed) = Ok s ->
  exists fi, float_of_int interval = (Ok fi, []) /\ s = py_max 0 (fi - elapsed).
Proof.
  unfold sleep_time. rewrite (M_eta (float_of_int interval)), float_of_int_events.
  destruct (outcome (float_of_int interval)) as [fi|e]; [|discriminate].
  simpl. intros [= <-]. now exists fi.
Qed.

Lemma sleep_time_events (interval : Z) (elapsed : float) :
  events (sleep_time interval elapsed) = [].
Proof.
  unfold sleep_time. rewrite (M_eta (float_of_int interval)), float_of_int_events.
  now destruct (outcome (float_of_int interval)).
Qed.

(** *** One pass of the loop *)

Lemma loop_body_check_raises (interval : Z) (pa : option string) (c : cycle)
    (e : exn) (evs : list event) :
  check_provider_data pa c = (Raise e, evs) ->
  loop_body interval pa c = (Raise e, evs).
Proof. intros H. unfold loop_body. now rewrite H. Qed.

Lemma loop_body_sleep_raises (interval : Z) (pa : option string) (c : cycle)
    (r : option WebpageInfo * list string) (e : exn) (evs : list event) :
  check_provider_data pa c = (Ok r, evs) ->
  outcome (sleep_time interval (t_end c - t_start c)) = Raise e ->
  loop_body interval pa c = (Raise e, evs).
Proof.
  intros H Hs. unfold loop_body. rewrite H, bind_Ok.
  rewrite (M_eta (sleep_time _ _)), sleep_time_events, Hs. cbn.
  now rewrite app_nil_r.
Qed.

Lemma loop_body_completes (interval : Z) (pa : option string) (c : cycle)
    (r : option WebpageInfo * list string) (s : float) (evs : list event) :
  check_provider_data pa c = (Ok r, evs) ->
  outcome (sleep_time interval (t_end c - t_start c)) = Ok s ->
  loop_body interval pa c
  = (Ok tt, (evs ++ wait_events interval (t_end c - t_start c) s)%list).
Proof.
  intros H Hs. unfold loop_body. rewrite H, bind_Ok.
  rewrite (M_eta (sleep_time _ _)), sleep_time_events, Hs, bind_Ok.
  unfold wait_events. destruct (0 <? s); reflexivity.
Qed.

Lemma iteration_completes (interval : Z) (pa : option string) (c : cycle)
    (evs : list event) :
  loop_body interval pa c = (Ok tt, evs) ->
  iteration interval pa c = (Ok tt, evs).
Proof. intros H. unfold iteration. now rewrite H. Qed.

Lemma iteration_falls_back (interval : Z) (pa : option string) (c : cycle)
    (e : exn) (evs : list event) :
  loop_body interval pa c = (Raise e, evs) ->
  iteration interval pa c = (Ok tt, (evs ++ fallback_events e)%list).
Proof. intros H. unfold iteration. now rewrite H. Qed.

(** Whatever happens in a pass, the pass ends normally and leaves a log
    record behind. *)
Lemma iteration_returns (interval : Z) (pa : option string) (c : cycle) :
  outcome (iteration interval pa c) = Ok tt /\ events (iteration interval pa c) <> [].
Proof.
  destruct (loop_body interval pa c) as [[[]|e] evs] eqn:H.
  - rewrite (iteration_completes _ _ _ _ H). split; [reflexivity|].
    simpl. intros ->. revert H. unfold loop_body.
    destruct (check_provider_data pa c) as [[r|e] evs']; [|discriminate].
    rewrite bind_Ok, (M_eta (sleep_time _ _)), sleep_time_events.
    destruct (outcome (sleep_time _ _)) as [s|e]; [|discriminate].
    rewrite bind_Ok. destruct (0 <? s); simpl; intros [= Hn];
      now destruct evs'.
  - rewrite (iteration_falls_back _ _ _ _ _ H). split; [reflexivity|].
    simpl. now destruct evs.
Qed.

(** *** The loop *)

Lemma while_true_running (interval : Z) (pa : option string) (cycles : nat -> cycle)
    (fuel k : nat) :
  outcome (while_true interval pa cycles k fuel) = Ok Running.
Proof.
  revert k. induction fuel as [|fuel IH]; intros k; simpl.
  - reflexivity.
  - destruct (iteration_returns interval pa (cycles k)) as [Ho _].
    rewrite (M_eta (iteration _ _ _)), Ho, bind_Ok. simpl. apply IH.
Qed.

Lemma while_true_unfold (interval : Z) (pa : option string) (cycles : nat -> cycle)
    (fuel k : nat) :
  events (while_true interval pa cycles k (S fuel))
  = (events (iteration interval pa (cycles k))
       ++ events (while_true interval pa cycles (S k) fuel))%list.
Proof.
  simpl. destruct (iteration_returns interval pa (cycles k)) as [Ho _].
  rewrite (M_eta (iteration _ _ _)), Ho, bind_Ok. reflexivity.
Qed.

(** One more observed pass appends the events of that pass. *)
Lemma while_true_extends (interval : Z) (pa : option string) (cycles : nat -> cycle)
    (fuel k : nat) :
  events (while_true interval pa cycles k (S fuel))
  = (events (while_true interval pa cycles k fuel)
       ++ events (iteration interval pa (cycles (k + fuel)%nat)))%list.
Proof.
  revert k. induction fuel as [|fuel IH]; intros k.
  - rewrite while_true_unfold. simpl. now rewrite Nat.add_0_r, app_nil_r.
  - rewrite while_true_unfold, IH, (while_true_unfold _ _ _ fuel k), <- app_assoc.
    now rewrite Nat.add_succ_comm.
Qed.

Lemma monitoring_interval_events : events monitoring_interval = [].
Proof. unfold monitoring_interval. now destruct (getenv env "MONITORING_INTERVAL"). Qed.

Lemma monitor_loop_interval_raises (startup_post : post_outcome) (cycles : nat -> cycle)
    (fuel : nat) (e : exn) :
  outcome monitoring_interval = Raise e ->
  monitor_loop startup_post cycles fuel = (Raise e, []).
Proof.
  intros H. unfold monitor_loop.
  now rewrite (M_eta monitoring_interval), monitoring_interval_events, H.
Qed.

Lemma monitor_loop_no_address (startup_post : post_outcome) (cycles : nat -> cycle)
    (fuel : nat) (interval : Z) :
  outcome monitoring_interval = Ok interval ->
  truthy (getenv env "PROVIDER_ADDRESS") = false ->
  monitor_loop startup_post cycles fuel
  = (Ok Returned,
     Log ERROR missing_address_message
       :: events (send_telegram_alert (error_alert missing_address_message) startup_post)).
Proof.
  intros H Ha. unfold monitor_loop.
  rewrite (M_eta monitoring_interval), monitoring_interval_events, H, bind_Ok, Ha.
  cbn [negb]. fold missing_address_message. fold (error_alert missing_address_message).
  destruct (send_telegram_alert_returns (error_alert missing_address_message) startup_post)
    as [b Hb].
  rewrite (M_eta (send_telegram_alert _ _)), Hb. cbn. now rewrite app_nil_r.
Qed.

Lemma monitor_loop_runs (startup_post : post_outcome) (cycles : nat -> cycle)
    (fuel : nat) (interval : Z) :
  outcome monitoring_interval = Ok interval ->
  truthy (getenv env "PROVIDER_ADDRESS") = true ->
  monitor_loop startup_post cycles fuel
  = (Ok Running,
     (startup_events interval
        ++ events (while_true interval (getenv env "PROVIDER_ADDRESS") cycles 0 fuel))%list).
Proof.
  intros H Ha. unfold monitor_loop.
  rewrite (M_eta monitoring_interval), monitoring_interval_events, H, bind_Ok, Ha.
  cbn [negb]. unfold log, emit. rewrite !bind_Ok.
  rewrite (M_eta (while_true _ _ _ _ _)), while_true_running. reflexivity.
Qed.

Lemma main_of_monitor_loop (startup_post : post_outcome) (cycles : nat -> cycle)
    (fuel : nat) (st : status) (evs : list event) :
  monitor_loop startup_post cycles fuel = (Ok st, evs) ->
  main startup_post cycles fuel = (Ok st, evs).
Proof. intros H. unfold main. now rewrite H. Qed.

Lemma main_interval_raises (startup_post : post_outcome) (cycles : nat -> cycle)
    (fuel : nat) (e : exn) :
  outcome monitoring_interval = Raise e ->
  main startup_post cycles fuel
  = (Ok Returned, [Log ERROR ("Monitoring terminated due to error: " ++ str_exn e)]).
Proof.
  intros H. unfold main. now rewrite (monitor_loop_interval_raises _ _ _ _ H).
Qed.

(** *** Network calls and sleeps of one check *)

Lemma forallb_filter_none {A} (f : A -> bool) (l : list A) :
  (forall x, In x l -> f x = false) -> filter f l = [].
Proof.
  induction l as [|x l IH]; simpl; intros H; [reflexivity|].
  rewrite (H x (or_introl eq_refl)). apply IH. intros y Hy. apply H. now right.
Qed.

Lemma posts_app (evs evs' : list event) : posts (evs ++ evs') = (posts evs ++ posts evs')%list.
Proof. apply filter_app. Qed.

Lemma slept_app (evs evs' : list event) : slept (evs ++ evs') = (slept evs ++ slept evs')%list.
Proof.
  induction evs as [|[l msg|t|url json timeout|seconds] evs IH]; simpl;
    now rewrite ?IH.
Qed.

Lemma fetch_quiet (custom : option string) (ag : agent_outcome) :
  posts (events (get_provider_monitor_data custom ag)) = []
  /\ slept (events (get_provider_monitor_data custom ag)) = [].
Proof.
  destruct (fetch_events custom ag) as [-> | ->]; now split.
Qed.

Lemma send_telegram_alert_posts (message : string) (net : post_outcome) :
  posts (events (send_telegram_alert message net))
  = (if configured then [HttpPost telegram_url (telegram_payload message) 10] else [])
  /\ slept (events (send_telegram_alert message net)) = [].
Proof.
  destruct configured eqn:Hc.
  - destruct (delivery_failed net) eqn:Hd.
    + destruct (send_telegram_alert_failed message net Hc Hd) as [e ->]. now split.
    + rewrite (send_telegram_alert_delivered message net Hc Hd). now split.
  - rewrite (send_telegram_alert_skipped message net Hc). now split.
Qed.

Lemma check_provider_data_no_sleep (custom : option string) (c : cycle) :
  slept (events (check_provider_data custom c)) = [].
Proof.
  destruct (outcome get_thresholds) as [thresholds|e] eqn:Ht.
  - destruct (get_provider_monitor_data custom (agent_result c)) as [[d|e] evs] eqn:Hf.
    + destruct (get_thresholds_shape _ Ht) as (ts & -> & _).
      rewrite (check_provider_data_fetched _ _ _ _ _ Ht Hf). simpl.
      rewrite slept_app. simpl.
      replace (slept evs) with (slept (events (get_provider_monitor_data custom (agent_result c))))
        by now rewrite Hf.
      rewrite (proj2 (fetch_quiet _ _)). simpl.
      unfold dispatch_events. destruct (violations d ts); [reflexivity|].
      rewrite slept_app, (proj2 (send_telegram_alert_posts _ _)). reflexivity.
    + rewrite (check_provider_data_fetch_failed _ _ _ _ _ Ht Hf). simpl.
      rewrite slept_app. simpl.
      replace (slept evs) with (slept (events (get_provider_monitor_data custom (agent_result c))))
        by now rewrite Hf.
      rewrite (proj2 (fetch_quiet _ _)), (proj2 (send_telegram_alert_posts _ _)). reflexivity.
  - now rewrite (check_provider_data_thresholds_raise _ _ _ Ht).
Qed.

(** *** Truth values *)

Lemma truthy_py_or (a b : option string) : truthy (py_or a b) = truthy a || truthy b.
Proof. unfold py_or. destruct (truthy a) eqn:Ha; [exact Ha|reflexivity]. Qed.

Lemma truthy_false (o : option string) : truthy o = false <-> o = None \/ o = Some "".
Proof.
  destruct o as [[|ch s]|]; simpl; split; intros H; try discriminate; auto.
  - destruct H as [H|H]; discriminate.
Qed.

Lemma py_or_falsy (a b : option string) : truthy a = false -> py_or a b = b.
Proof. unfold py_or. now intros ->. Qed.

Lemma py_or_same (a : option string) : py_or a a = a.
Proof. unfold py_or. now destruct (truthy a). Qed.

(** With an address the fetcher returns a snapshot or raises the error of
    line 103. *)
Lemma fetch_with_address (custom : option string) (ag : agent_outcome) :
  truthy (py_or custom provider_address) = true ->
  (exists d, outcome (get_provider_monitor_data custom ag) = Ok d)
  \/ (exists msg, outcome (get_provider_monitor_data custom ag) = Raise (fetch_error msg)).
Proof.
  intros H. destruct ag as [e|r].
  - right. rewrite (fetch_agent_raises _ e H). now eexists.
  - destruct (truthy r) eqn:Hr.
    + destruct (model_validate_json (str_opt r)) as [d|pe] eqn:Hv.
      * left. rewrite (fetch_validated _ _ _ H Hr Hv). now eexists.
      * right. rewrite (fetch_parse_error _ _ _ H Hr Hv). now eexists.
    + right. rewrite (fetch_no_result _ _ H Hr). now eexists.
Qed.

Lemma fetch_falsy_custom (custom : option string) (ag : agent_outcome) :
  truthy custom = false ->
  get_provider_monitor_data custom ag = get_provider_monitor_data provider_address ag.
Proof.
  intros H. unfold get_provider_monitor_data.
  now rewrite (py_or_falsy _ _ H), py_or_same.
Qed.

(** *** Lookups in the threshold dictionary *)

Lemma dict_get_thresholds (ts : ThresholdSet) (key : string) (dflt v : float) :
  In ((key, dflt), (key, v)) (combine DEFAULT_THRESHOLDS (dict_of_thresholds ts)) ->
  dict_get (dict_of_thresholds ts) key = (Ok v, []).
Proof.
  simpl. intros H.
  repeat (destruct H as [H|H]; [inversion H; subst; reflexivity|]).
  contradiction.
Qed.

Lemma Forall2_combine_In {A B} (P : A -> B -> Prop) (l : list A) (l' : list B) (a : A) :
  Forall2 P l l' -> In a l -> exists b, In (a, b) (combine l l') /\ P a b.
Proof.
  induction 1 as [|x y l l' Hxy _ IH]; simpl; [contradiction|].
  intros [<-|Ha].
  - exists y. split; [now left|exact Hxy].
  - destruct (IH Ha) as (b & Hb & HP). exists b. split; [now right|exact HP].
Qed.

(** A key of the defaults sits at the same place in a threshold dictionary. *)
Lemma thresholds_same_keys (ts : ThresholdSet) (item : string * float) (kv : string * float) :
  In (item, kv) (combine DEFAULT_THRESHOLDS (dict_of_thresholds ts)) -> fst kv = fst item.
Proof.
  simpl. intros H.
  repeat (destruct H as [H|H]; [inversion H; subst; reflexivity|]).
  contradiction.
Qed.

Lemma get_thresholds_lookup (d : dict) (key : string) (dflt : float) :
  outcome get_thresholds = Ok d ->
  In (key, dflt) DEFAULT_THRESHOLDS ->
  outcome (dict_get d key) = threshold_value (key, dflt).
Proof.
  intros Hd Hin.
  destruct (get_thresholds_shape _ Hd) as (ts & -> & Hall).
  destruct (Forall2_combine_In _ _ _ _ Hall Hin) as ([k v] & Hc & Hv).
  pose proof (thresholds_same_keys _ _ _ Hc) as Hk. simpl in Hk. subst k.
  rewrite (dict_get_thresholds _ _ _ _ Hc). simpl in *. now rewrite Hv.
Qed.

Lemma threshold_values_Forall2 (items : dict) :
  Forall (fun item => exists v, threshold_value item = Ok v) items ->
  exists vs, Forall2 (fun item v => threshold_value item = Ok v) items vs.
Proof.
  induction 1 as [|item items [v Hv] _ [vs IH]].
  - exists []. constructor.
  - exists (v :: vs). now constructor.
Qed.

(** ** The claims *)

(** C1: threshold evaluation compares each of the six metrics with its own
    threshold by strict less-than and goes through all six whatever the
    earlier ones gave: what the code returns is the list of the lines of the
    metrics below their threshold, in the fixed order availability_6h,
    availability_24h, success_6h.primary, success_6h.secondary,
    success_24h.primary, success_24h.secondary.  Every metric below its
    threshold has its line in the list, and the alert text that is posted
    carries the lines in that order, one per line of text. *)
Theorem threshold_evaluation_fixed_order (d : WebpageInfo) (ts : ThresholdSet) :
  evaluate d (dict_of_thresholds ts) = (Ok (violations d ts), [])
  /\ (forall m, In m (metrics_in_order d ts) -> below m = true ->
        In (violation_line m) (violations d ts))
  /\ (forall custom now,
        alert_message custom (violations d ts) now
        = "*FLARE PROVIDER ALERT*" ++ nl ++ nl ++ "Provider: " ++ backquote
            ++ str_opt (py_or custom (Some (getenv_default env "PROVIDER_ADDRESS" "Unknown")))
            ++ backquote ++ nl ++ nl ++ join nl (violations d ts)
            ++ nl ++ nl ++ "_Timestamp: " ++ now ++ "_")
  /\ (forall custom c evs,
        outcome get_thresholds = Ok (dict_of_thresholds ts) ->
        get_provider_monitor_data custom (agent_result c) = (Ok d, evs) ->
        outcome (check_provider_data custom c) = Ok (Some d, violations d ts)
        /\ (configured = true -> violations d ts <> [] ->
              posts (events (check_provider_data custom c))
              = [HttpPost telegram_url
                   (telegram_payload (alert_message custom (violations d ts) (now c))) 10])).
Proof.
  split; [apply evaluate_violations|].
  split.
  { intros m Hm Hb. unfold violations. apply in_map, filter_In. now split. }
  split.
  { intros custom now. unfold alert_message.
    rewrite !append_assoc. reflexivity. }
  intros custom c evs Ht Hf.
  rewrite (check_provider_data_fetched _ _ _ _ _ Ht Hf).
  split; [reflexivity|].
  intros Hc Hne. simpl. rewrite posts_app.
  replace (posts evs)
    with (posts (events (get_provider_monitor_data custom (agent_result c))))
    by now rewrite Hf.
  rewrite (proj1 (fetch_quiet _ _)). simpl.
  unfold dispatch_events. destruct (violations d ts) as [|a alerts]; [now elim Hne|].
  rewrite posts_app, (proj1 (send_telegram_alert_posts _ _)), Hc. reflexivity.
Qed.

(** C2: when each of the six metrics is strictly above its threshold, the
    evaluation yields no violation line, and the check that fetched such a
    snapshot makes no network call: no alert is dispatched. *)
Theorem no_violation_above_thresholds (d : WebpageInfo) (ts : ThresholdSet) :
  forallb above (metrics_in_order d ts) = true ->
  violations d ts = []
  /\ evaluate d (dict_of_thresholds ts) = (Ok [], [])
  /\ (forall custom c evs,
        outcome get_thresholds = Ok (dict_of_thresholds ts) ->
        get_provider_monitor_data custom (agent_result c) = (Ok d, evs) ->
        outcome (check_provider_data custom c) = Ok (Some d, [])
        /\ posts (events (check_provider_data custom c)) = []).
Proof.
  intros Habove.
  assert (Hv : violations d ts = []).
  { unfold violations.
    replace (filter below (metrics_in_order d ts)) with (@nil (string * float * float));
      [reflexivity|].
    symmetry. apply forallb_filter_none. intros [[label value] threshold] Hm.
    rewrite forallb_forall in Habove. specialize (Habove _ Hm).
    simpl in *. now apply ltb_asym. }
  split; [exact Hv|].
  split; [now rewrite evaluate_violations, Hv|].
  intros custom c evs Ht Hf.
  rewrite (check_provider_data_fetched _ _ _ _ _ Ht Hf), Hv.
  split; [reflexivity|].
  simpl. rewrite posts_app.
  replace (posts evs)
    with (posts (events (get_provider_monitor_data custom (agent_result c))))
    by now rewrite Hf.
  rewrite (proj1 (fetch_quiet _ _)). reflexivity.
Qed.

(** C3: the fetcher fails in three separate ways.  With no address, neither
    as argument nor in the environment, it raises the [ValueError] of line 42
    before any agent run.  With an address, when the run of the agent raises
    it raises the error of line 103 around the message of the failure, and
    when the text the agent returned is refused by the validator it raises
    that error around the parse message of line 99, which quotes the raw
    text.  A snapshot is returned only when the validator produced it from
    the text of the agent: malformed output never turns into a default
    snapshot. *)
Theorem fetcher_failure_conditions (custom : option string) (ag : agent_outcome) :
  (truthy custom = false -> truthy provider_address = false ->
     get_provider_monitor_data custom ag = (Raise no_address_error, []))
  /\ (truthy custom = true \/ truthy provider_address = true ->
      forall e, ag = AgentRaises e ->
        outcome (get_provider_monitor_data custom ag) = Raise (fetch_error (str_exn e)))
  /\ (truthy custom = true \/ truthy provider_address = true ->
      forall s parse_error,
        ag = AgentFinal (Some s) -> s <> "" -> model_validate_json s = Raise parse_error ->
        outcome (get_provider_monitor_data custom ag)
        = Raise (fetch_error (parse_error_message parse_error s)))
  /\ (forall d,
        outcome (get_provider_monitor_data custom ag) = Ok d ->
        exists s, ag = AgentFinal (Some s) /\ s <> "" /\ model_validate_json s = Ok d).
Proof.
  assert (Hor : truthy custom = true \/ truthy provider_address = true ->
                truthy (py_or custom provider_address) = true).
  { intros H. rewrite truthy_py_or. destruct H as [-> | ->]; [reflexivity|apply orb_true_r]. }
  split.
  { intros Hc Hp. apply fetch_no_address. now rewrite truthy_py_or, Hc, Hp. }
  split.
  { intros H e ->. now rewrite (fetch_agent_raises _ e (Hor H)). }
  split.
  { intros H s pe -> Hs Hv.
    assert (Hr : truthy (Some s) = true).
    { simpl. destruct s; [now elim Hs|reflexivity]. }
    now rewrite (fetch_parse_error _ (Some s) pe (Hor H) Hr Hv). }
  intros d Hd. destruct (fetch_Ok_inv _ _ _ Hd) as (s & -> & Hs & Hv & _).
  now exists s.
Qed.

(** C10: a falsy custom address, [None] or the empty string, counts as
    absent: the fetcher then behaves as if it had been given the value of
    PROVIDER_ADDRESS, and it raises the no-address error exactly when both
    the argument and that value are falsy. *)
Theorem falsy_custom_address_falls_back (ag : agent_outcome) :
  get_provider_monitor_data None ag = get_provider_monitor_data provider_address ag
  /\ get_provider_monitor_data (Some "") ag = get_provider_monitor_data provider_address ag
  /\ (forall custom, truthy custom = false <-> custom = None \/ custom = Some "")
  /\ (forall custom,
        outcome (get_provider_monitor_data custom ag) = Raise no_address_error
        <-> truthy custom = false /\ truthy provider_address = false).
Proof.
  split; [now apply fetch_falsy_custom|].
  split; [now apply fetch_falsy_custom|].
  split; [apply truthy_false|].
  intros custom. split.
  - intros H. destruct (truthy (py_or custom provider_address)) eqn:Hp.
    + destruct (fetch_with_address custom ag Hp) as [[d Hd]|[msg Hm]];
        rewrite H in *; discriminate.
    + rewrite truthy_py_or in Hp. now apply orb_false_iff.
  - intros [Hc Hp]. rewrite fetch_no_address; [reflexivity|].
    now rewrite truthy_py_or, Hc, Hp.
Qed.

(** C6, as the code has it: the dispatcher always returns a boolean.  When
    the bot token or the chat identifier is absent or empty it makes no
    network call, logs one warning and returns false.  Otherwise it makes
    exactly one post, with a timeout of 10 seconds; it returns true unless
    [requests] raises, that is unless the call itself fails or the status is
    in 400..599, in which case it logs the failure and returns false. *)
Theorem send_telegram_alert_contract (message : string) (net : post_outcome) :
  (exists b, outcome (send_telegram_alert message net) = Ok b)
  /\ (truthy TELEGRAM_BOT_TOKEN = false \/ truthy TELEGRAM_CHAT_ID = false ->
      send_telegram_alert message net
      = (Ok false,
         [Log WARNING "Telegram bot token or chat ID not configured. Cannot send alert."]))
  /\ (truthy TELEGRAM_BOT_TOKEN = true -> truthy TELEGRAM_CHAT_ID = true ->
      posts (events (send_telegram_alert message net))
      = [HttpPost telegram_url (telegram_payload message) 10]
      /\ (delivery_failed net = false ->
            send_telegram_alert message net
            = (Ok true,
               [HttpPost telegram_url (telegram_payload message) 10;
                Log INFO ("Telegram alert sent successfully: " ++ message)]))
      /\ (delivery_failed net = true ->
            exists e,
              send_telegram_alert message net
              = (Ok false,
                 [HttpPost telegram_url (telegram_payload message) 10;
                  Log ERROR ("Failed to send Telegram alert: " ++ str_exn e)]))).
Proof.
  split; [apply send_telegram_alert_returns|].
  split.
  { intros H. apply send_telegram_alert_skipped. unfold configured.
    destruct H as [-> | ->]; [reflexivity|apply andb_false_r]. }
  intros Ht Hc.
  assert (Hconf : configured = true) by (unfold configured; now rewrite Ht, Hc).
  split.
  { now rewrite (proj1 (send_telegram_alert_posts _ _)), Hconf. }
  split.
  - now apply send_telegram_alert_delivered.
  - now apply send_telegram_alert_failed.
Qed.

(** C9, as the code has it: [check_provider_data] reads the thresholds
    before its [try], so an override that [float] refuses reaches the caller
    as the [ValueError] it is.  When the thresholds are read, nothing is
    propagated: the call returns the snapshot with the list of its violation
    lines when the fetch succeeds, and [None] with the one error message
    when the fetch fails. *)
Theorem check_provider_data_outcomes (custom : option string) (c : cycle) :
  match outcome get_thresholds with
  | Raise e => check_provider_data custom c = (Raise e, [])
  | Ok thresholds =>
      match outcome (get_provider_monitor_data custom (agent_result c)) with
      | Ok d =>
          exists alerts,
            outcome (evaluate d thresholds) = Ok alerts
            /\ outcome (check_provider_data custom c) = Ok (Some d, alerts)
      | Raise e =>
          outcome (check_provider_data custom c) = Ok (None, [check_error_message e])
      end
  end.
Proof.
  destruct (outcome get_thresholds) as [thresholds|e] eqn:Ht.
  - destruct (get_provider_monitor_data custom (agent_result c)) as [[d|e] evs] eqn:Hf; simpl.
    + destruct (get_thresholds_shape _ Ht) as (ts & -> & _).
      exists (violations d ts). rewrite evaluate_violations.
      now rewrite (check_provider_data_fetched _ _ _ _ _ Ht Hf).
    + now rewrite (check_provider_data_fetch_failed _ _ _ _ _ Ht Hf).
  - now apply check_provider_data_thresholds_raise.
Qed.

(** C7, as the code has it: each threshold is the default when its
    variable is absent or empty and [float] of the text otherwise; the
    interval is the default 900 when MONITORING_INTERVAL is absent and [int]
    of the text otherwise.  No default stands in for a text that does not
    parse: the [ValueError] of [float] makes [get_thresholds] raise, that of
    [int] makes [monitoring_interval] raise. *)
Theorem configuration_parsing :
  (forall d key dflt,
     outcome get_thresholds = Ok d -> In (key, dflt) DEFAULT_THRESHOLDS ->
     outcome (dict_get d key)
     = (if truthy (getenv env (upper key))
        then py_float (str_opt (getenv env (upper key)))
        else Ok dflt))
  /\ (forall e,
        outcome get_thresholds = Raise e ->
        exists key dflt s,
          In (key, dflt) DEFAULT_THRESHOLDS /\ getenv env (upper key) = Some s
          /\ s <> "" /\ py_float s = Raise e)
  /\ (forall key dflt s e,
        In (key, dflt) DEFAULT_THRESHOLDS -> getenv env (upper key) = Some s ->
        s <> "" -> py_float s = Raise e ->
        exists e', get_thresholds = (Raise e', []))
  /\ ((forall key dflt s,
         In (key, dflt) DEFAULT_THRESHOLDS -> getenv env (upper key) = Some s ->
         s <> "" -> exists v, py_float s = Ok v) ->
      exists d, get_thresholds = (Ok d, []))
  /\ monitoring_interval
     = match getenv env "MONITORING_INTERVAL" with
       | Some s => (py_int s, [])
       | None => (Ok 900%Z, [])
       end.
Proof.
  assert (Hset : forall key s, getenv env (upper key) = Some s -> s <> "" ->
                 forall dflt, threshold_value (key, dflt) = py_float s).
  { intros key s Hg Hs dflt. unfold threshold_value. simpl. rewrite Hg. simpl.
    destruct s; [now elim Hs|reflexivity]. }
  split.
  { intros d key dflt Hd Hin. now rewrite (get_thresholds_lookup _ _ _ Hd Hin). }
  split.
  { intros e He. apply get_thresholds_from_Raise in He. apply Exists_exists in He.
    destruct He as ([key dflt] & Hin & Hv). unfold threshold_value in Hv. simpl in Hv.
    destruct (getenv env (upper key)) as [s|] eqn:Hg; [|discriminate].
    simpl in Hv. destruct s as [|ch s]; [discriminate|].
    exists key, dflt, (String ch s). repeat split; trivial. discriminate. }
  split.
  { intros key dflt s e Hin Hg Hs He.
    rewrite get_thresholds_eta.
    destruct (outcome get_thresholds) as [d|e'] eqn:Ho; [|now exists e'].
    pose proof (get_thresholds_lookup _ _ _ Ho Hin) as Hl.
    rewrite (Hset _ _ Hg Hs), He in Hl.
    destruct (get_thresholds_shape _ Ho) as (ts & -> & Hall).
    destruct (Forall2_combine_In _ _ _ _ Hall Hin) as ([k v] & Hc & Hv).
    simpl in Hv. rewrite (Hset _ _ Hg Hs), He in Hv. discriminate. }
  split.
  { intros Hall.
    destruct (threshold_values_Forall2 DEFAULT_THRESHOLDS) as [vs Hvs].
    - apply Forall_forall. intros [key dflt] Hin. unfold threshold_value. simpl.
      destruct (getenv env (upper key)) as [s|] eqn:Hg; simpl.
      + destruct s as [|ch s]; simpl; [now eexists|].
        apply (Hall key dflt (String ch s) Hin Hg). discriminate.
      + now eexists.
    - eexists. unfold get_thresholds. exact (get_thresholds_from_total _ _ _ Hvs). }
  unfold monitoring_interval. now destruct (getenv env "MONITORING_INTERVAL").
Qed.

(** C4, as the code has it: no failure ends the loop, and failures are
    handled at two places.  A failure of the fetcher is caught inside
    [check_provider_data], which logs it, dispatches the error alert and
    returns; the pass then goes on as after a success and waits for what
    remains of the interval.  The fixed wait of 60 seconds is for an
    exception that leaves the body of the loop, such as a threshold override
    that does not parse: the loop logs it and sleeps, and dispatches no
    alert of its own. *)
Theorem failure_handling_in_the_loop (interval : Z) (pa : option string) (c : cycle) :
  outcome (iteration interval pa c) = Ok tt
  /\ (forall thresholds e evs,
        outcome get_thresholds = Ok thresholds ->
        get_provider_monitor_data pa (agent_result c) = (Raise e, evs) ->
        check_provider_data pa c
        = (Ok (None, [check_error_message e]),
           (evs ++ Log ERROR (check_error_message e)
                :: events (send_telegram_alert (error_alert (check_error_message e))
                             (post_result c)))%list)
        /\ forall s,
             outcome (sleep_time interval (t_end c - t_start c)) = Ok s ->
             slept (events (iteration interval pa c))
             = slept (wait_events interval (t_end c - t_start c) s))
  /\ (forall e evs,
        loop_body interval pa c = (Raise e, evs) ->
        iteration interval pa c = (Ok tt, (evs ++ fallback_events e)%list)
        /\ slept (events (iteration interval pa c)) = [60])
  /\ (forall e,
        outcome get_thresholds = Raise e ->
        iteration interval pa c = (Ok tt, fallback_events e)).
Proof.
  split; [apply iteration_returns|].
  split.
  { intros thresholds e evs Ht Hf.
    pose proof (check_provider_data_fetch_failed _ _ _ _ _ Ht Hf) as Hc.
    split; [exact Hc|].
    intros s Hs.
    pose proof (loop_body_completes interval _ _ _ _ _ Hc Hs) as Hb.
    rewrite (iteration_completes _ _ _ _ Hb). unfold events at 1. cbn [snd].
    rewrite slept_app.
    pose proof (check_provider_data_no_sleep pa c) as Hq. rewrite Hc in Hq.
    unfold events at 1 in Hq. cbn [snd] in Hq. now rewrite Hq. }
  split.
  { intros e evs Hb. rewrite (iteration_falls_back _ _ _ _ _ Hb).
    split; [reflexivity|].
    unfold events. cbn [snd]. rewrite slept_app.
    assert (Hq : slept evs = []).
    { revert Hb. unfold loop_body.
      pose proof (check_provider_data_no_sleep pa c) as Hq.
      destruct (check_provider_data pa c) as [[r|e'] evs'].
      - rewrite bind_Ok, (M_eta (sleep_time _ _)), sleep_time_events.
        destruct (outcome (sleep_time _ _)) as [s|e''].
        + rewrite bind_Ok. destruct (0 <? s); discriminate.
        + cbn. rewrite app_nil_r. now intros [= _ <-].
      - now intros [= _ <-]. }
    now rewrite Hq. }
  intros e He.
  pose proof (check_provider_data_thresholds_raise pa c _ He) as Hc.
  pose proof (loop_body_check_raises interval _ _ _ _ Hc) as Hb.
  now rewrite (iteration_falls_back _ _ _ _ _ Hb).
Qed.

(** C5: after a successful cycle, one whose loop body ends without an
    exception, the time slept is [max(0, interval - elapsed)]: it is zero or
    the difference, it is not below the difference, and it is never
    negative.  The loop sleeps for exactly that long, not at all when it is
    zero.  With an interval of 900 the sleep time is 800 after 100 seconds
    and 0 after 950. *)
Theorem sleep_time_after_successful_cycle (interval : Z) (pa : option string) (c : cycle)
    (evs : list event) :
  loop_body interval pa c = (Ok tt, evs) ->
  (exists fi s,
     float_of_int interval = (Ok fi, [])
     /\ sleep_time interval (t_end c - t_start c) = (Ok s, [])
     /\ s = py_max 0 (fi - (t_end c - t_start c))
     /\ (s = 0 \/ s = fi - (t_end c - t_start c))
     /\ (s <? fi - (t_end c - t_start c)) = false
     /\ (s <? 0) = false
     /\ (0 <=? s) = true
     /\ slept evs = (if 0 <? s then [s] else []))
  /\ sleep_time 900 100 = (Ok 800, [])
  /\ sleep_time 900 950 = (Ok 0, []).
Proof.
  intros Hb. split; [|split; reflexivity].
  revert Hb. unfold loop_body.
  pose proof (check_provider_data_no_sleep pa c) as Hq.
  destruct (check_provider_data pa c) as [[r|e'] evs']; [|discriminate].
  rewrite bind_Ok.
  pose proof (sleep_time_events interval (t_end c - t_start c)) as Hse.
  destruct (sleep_time interval (t_end c - t_start c)) as [[s|e] sevs] eqn:Hs;
    [|discriminate].
  simpl in Hse. subst sevs.
  destruct (sleep_time_Ok interval (t_end c - t_start c) s) as (fi & Hfi & Hmax).
  { now rewrite Hs. }
  intros Hb. exists fi, s.
  split; [exact Hfi|]. split; [reflexivity|]. split; [exact Hmax|].
  split.
  { rewrite Hmax. unfold py_max. destruct (0 <? _); auto. }
  split; [rewrite Hmax; apply py_max_0_upper_bound|].
  split; [rewrite Hmax; apply py_max_0_not_negative|].
  split; [rewrite Hmax; apply py_max_0_at_least_0|].
  unfold events in Hq. cbn [snd] in Hq.
  revert Hb. unfold outcome, events. cbn [fst snd].
  rewrite bind_Ok. destruct (0 <? s); cbn; intros [= <-];
    rewrite slept_app, Hq; reflexivity.
Qed.

(** C8, as the code has it: [monitor_loop] has two ways out before its
    loop and none after.  When PROVIDER_ADDRESS is absent or empty it logs
    the error, tries to dispatch an alert and returns; when
    MONITORING_INTERVAL does not parse as an integer the error reaches
    [main], which logs it and returns.  In both cases the process ends by
    itself.  Otherwise the loop is entered and is never left: after any
    number of passes the process is still in the loop, and each further
    pass adds records to what it has logged. *)
Theorem monitor_loop_termination (startup_post : post_outcome) (cycles : nat -> cycle)
    (fuel : nat) :
  (forall interval,
     outcome monitoring_interval = Ok interval ->
     truthy (getenv env "PROVIDER_ADDRESS") = false ->
     main startup_post cycles fuel
     = (Ok Returned,
        Log ERROR missing_address_message
          :: events (send_telegram_alert (error_alert missing_address_message)
                       startup_post)))
  /\ (forall e,
        outcome monitoring_interval = Raise e ->
        main startup_post cycles fuel
        = (Ok Returned,
           [Log ERROR ("Monitoring terminated due to error: " ++ str_exn e)]))
  /\ (forall interval,
        outcome monitoring_interval = Ok interval ->
        truthy (getenv env "PROVIDER_ADDRESS") = true ->
        outcome (main startup_post cycles fuel) = Ok Running
        /\ events (main startup_post cycles (S fuel))
           = (events (main startup_post cycles fuel)
                ++ events (iteration interval (getenv env "PROVIDER_ADDRESS")
                             (cycles fuel)))%list
        /\ events (iteration interval (getenv env "PROVIDER_ADDRESS") (cycles fuel)) <> []).
Proof.
  split.
  { intros interval Hi Ha. apply main_of_monitor_loop.
    now apply (monitor_loop_no_address _ _ _ interval). }
  split; [intros e He; now apply main_interval_raises|].
  intros interval Hi Ha.
  rewrite (main_of_monitor_loop _ _ _ _ _ (monitor_loop_runs _ cycles fuel _ Hi Ha)).
  rewrite (main_of_monitor_loop _ _ _ _ _ (monitor_loop_runs _ cycles (S fuel) _ Hi Ha)).
  split; [reflexivity|].
  split; [|apply iteration_returns].
  pose proof (while_true_extends interval (getenv env "PROVIDER_ADDRESS") cycles fuel 0)
    as Hx.
  unfold events in *. cbn [snd plus] in *. now rewrite Hx, app_assoc.
Qed.

(** ** Further facts about the two modules *)

(** *** Sessions, posts and sleeps, counted *)

Lemma agent_runs_app (evs evs' : list event) :
  agent_runs (evs ++ evs') = (agent_runs evs ++ agent_runs evs')%list.
Proof. apply filter_app. Qed.

Lemma fetch_agent_runs (custom : option string) (ag : agent_outcome) :
  agent_runs (events (get_provider_monitor_data custom ag))
  = events (get_provider_monitor_data custom ag).
Proof. destruct (fetch_events custom ag) as [-> | ->]; reflexivity. Qed.

Lemma send_telegram_alert_counts (message : string) (net : post_outcome) :
  agent_runs (events (send_telegram_alert message net)) = []
  /\ List.length (posts (events (send_telegram_alert message net))) <= 1.
Proof.
  rewrite (proj1 (send_telegram_alert_posts message net)).
  split; [|destruct configured; simpl; lia].
  destruct configured eqn:Hc.
  - destruct (delivery_failed net) eqn:Hd.
    + now destruct (send_telegram_alert_failed message net Hc Hd) as [e ->].
    + now rewrite (send_telegram_alert_delivered message net Hc Hd).
  - now rewrite (send_telegram_alert_skipped message net Hc).
Qed.

(** Around one call of the dispatcher, with log records only. *)
Lemma dispatch_counts (before after : list event) (message : string) (net : post_outcome) :
  (forall ev, In ev (before ++ after)%list -> exists l msg, ev = Log l msg) ->
  let rest := (before ++ events (send_telegram_alert message net) ++ after)%list in
  agent_runs rest = [] /\ slept rest = [] /\ List.length (posts rest) <= 1
  /\ (configured = false -> posts rest = []).
Proof.
  intros Hlog rest.
  assert (Hquiet : forall l, (forall ev, In ev l -> exists lv msg, ev = Log lv msg) ->
                             agent_runs l = [] /\ slept l = [] /\ posts l = []).
  { induction l as [|ev l IH]; intros Hl; [now repeat split|].
    destruct (Hl ev (or_introl eq_refl)) as (lv & msg & ->).
    destruct IH as (H1 & H2 & H3); [intros ev' H'; apply Hl; now right|].
    now repeat split. }
  destruct (Hquiet before) as (B1 & B2 & B3);
    [intros ev H; apply Hlog, in_or_app; now left|].
  destruct (Hquiet after) as (A1 & A2 & A3);
    [intros ev H; apply Hlog, in_or_app; now right|].
  destruct (send_telegram_alert_counts message net) as [Ha Hp].
  destruct (send_telegram_alert_posts message net) as [Hq Hs].
  unfold rest.
  rewrite !agent_runs_app, !slept_app, !posts_app, B1, B2, B3, A1, A2, A3, Ha, Hs.
  simpl. rewrite !app_nil_r.
  repeat split; trivial. intros Hc. now rewrite Hq, Hc.
Qed.

(** The events of a check, by what the thresholds and the fetch gave. *)
Lemma check_provider_data_events (custom : option string) (c : cycle) :
  events (check_provider_data custom c) = []
  \/ exists rest,
       events (check_provider_data custom c)
       = (events (get_provider_monitor_data custom (agent_result c)) ++ rest)%list
       /\ agent_runs rest = []
       /\ slept rest = []
       /\ List.length (posts rest) <= 1
       /\ (configured = false -> posts rest = []).
Proof.
  destruct (outcome get_thresholds) as [thresholds|e] eqn:Ht.
  - right.
    destruct (get_provider_monitor_data custom (agent_result c)) as [[d|e] evs] eqn:Hf.
    + destruct (get_thresholds_shape _ Ht) as (ts & -> & _).
      rewrite (check_provider_data_fetched _ _ _ _ _ Ht Hf).
      eexists. split; [reflexivity|].
      unfold dispatch_events. destruct (violations d ts) as [|a alerts].
      * repeat split; simpl; auto.
      * apply (dispatch_counts
                 [Log INFO ("Provider data retrieved successfully: " ++ str_WebpageInfo d)]
                 [Log WARNING ("Alerts detected: " ++ str_list (a :: alerts))]).
        simpl. intros ev [<-|[<-|[]]]; now do 2 eexists.
    + rewrite (check_provider_data_fetch_failed _ _ _ _ _ Ht Hf).
      eexists. split; [reflexivity|].
      pose proof (dispatch_counts [Log ERROR (check_error_message e)] []
                    (error_alert (check_error_message e)) (post_result c)) as H.
      cbv zeta in H. rewrite !app_nil_r in H. apply H.
      simpl. intros ev [<-|[]]. now do 2 eexists.
  - left. now rewrite (check_provider_data_thresholds_raise _ _ _ Ht).
Qed.

(** What a pass adds after its check: log records and at most one sleep,
    which is positive. *)
Lemma iteration_events (interval : Z) (pa : option string) (c : cycle) :
  exists tail,
    events (iteration interval pa c) = (events (check_provider_data pa c) ++ tail)%list
    /\ agent_runs tail = []
    /\ posts tail = []
    /\ (slept tail = [] \/ exists s, slept tail = [s] /\ (0 <? s) = true).
Proof.
  assert (Hfb : forall e, agent_runs (fallback_events e) = [] /\ posts (fallback_events e) = []
                          /\ (slept (fallback_events e) = []
                              \/ exists s, slept (fallback_events e) = [s] /\ (0 <? s) = true)).
  { intros e. repeat split. right. now exists 60. }
  destruct (check_provider_data pa c) as [[r|e] evs] eqn:Hc.
  - destruct (outcome (sleep_time interval (t_end c - t_start c))) as [s|e] eqn:Hs.
    + rewrite (iteration_completes _ _ _ _ (loop_body_completes _ _ _ _ _ _ Hc Hs)).
      eexists. split; [reflexivity|].
      unfold wait_events. destruct (0 <? s) eqn:Hpos; repeat split; auto.
      right. now exists s.
    + rewrite (iteration_falls_back _ _ _ _ _ (loop_body_sleep_raises _ _ _ _ _ _ Hc Hs)).
      eexists. split; [reflexivity|]. apply Hfb.
  - rewrite (iteration_falls_back _ _ _ _ _ (loop_body_check_raises interval _ _ _ _ Hc)).
    eexists. split; [reflexivity|]. apply Hfb.
Qed.

Lemma check_provider_data_counts (custom : option string) (c : cycle) :
  List.length (agent_runs (events (check_provider_data custom c))) <= 1
  /\ List.length (posts (events (check_provider_data custom c))) <= 1
  /\ (configured = false -> posts (events (check_provider_data custom c)) = []).
Proof.
  destruct (check_provider_data_events custom c) as [-> | (rest & -> & Ha & _ & Hp & Hc)].
  - simpl. repeat split; lia.
  - rewrite agent_runs_app, posts_app, Ha, fetch_agent_runs,
      (proj1 (fetch_quiet custom (agent_result c))), app_nil_r.
    split; [|split; [exact Hp|exact Hc]].
    destruct (fetch_events custom (agent_result c)) as [-> | ->]; simpl; lia.
Qed.

Lemma iteration_counts (interval : Z) (pa : option string) (c : cycle) :
  List.length (agent_runs (events (iteration interval pa c))) <= 1
  /\ List.length (posts (events (iteration interval pa c))) <= 1
  /\ List.length (slept (events (iteration interval pa c))) <= 1
  /\ Forall (fun s => (0 <? s) = true) (slept (events (iteration interval pa c)))
  /\ (configured = false -> posts (events (iteration interval pa c)) = []).
Proof.
  destruct (iteration_events interval pa c) as (tail & -> & Ha & Hp & Hs).
  destruct (check_provider_data_counts pa c) as (Ca & Cp & Cc).
  rewrite agent_runs_app, posts_app, slept_app, Ha, Hp, !app_nil_r,
    check_provider_data_no_sleep.
  split; [exact Ca|]. split; [exact Cp|]. simpl.
  destruct Hs as [-> | (s & -> & Hpos)]; simpl; repeat split; auto.
Qed.

Lemma Forall_app_intro {A} (P : A -> Prop) (l l' : list A) :
  Forall P l -> Forall P l' -> Forall P (l ++ l').
Proof. intros H H'. apply Forall_app. now split. Qed.

Lemma while_true_counts (interval : Z) (pa : option string) (cycles : nat -> cycle)
    (fuel k : nat) :
  List.length (agent_runs (events (while_true interval pa cycles k fuel))) <= fuel
  /\ List.length (posts (events (while_true interval pa cycles k fuel))) <= fuel
  /\ List.length (slept (events (while_true interval pa cycles k fuel))) <= fuel
  /\ Forall (fun s => (0 <? s) = true)
       (slept (events (while_true interval pa cycles k fuel)))
  /\ (configured = false -> posts (events (while_true interval pa cycles k fuel)) = []).
Proof.
  revert k. induction fuel as [|fuel IH]; intros k.
  - simpl. repeat split; auto.
  - rewrite while_true_unfold, agent_runs_app, posts_app, slept_app, !length_app.
    destruct (iteration_counts interval pa (cycles k)) as (I1 & I2 & I3 & I4 & I5).
    destruct (IH (S k)) as (W1 & W2 & W3 & W4 & W5).
    repeat split; try lia.
    + now apply Forall_app_intro.
    + intros Hc. now rewrite (I5 Hc), (W5 Hc).
Qed.

(** *** More on floats *)

Lemma ltb_irrefl (x : float) : (x <? x) = false.
Proof.
  destruct (x <? x) eqn:H; [|reflexivity]. now rewrite (ltb_asym _ _ H) in H.
Qed.

Lemma Prim2SF_nan (x : float) : is_nan x = true -> Prim2SF x = S754_nan.
Proof. intros H. unfold Prim2SF. now rewrite H. Qed.

Lemma ltb_nan_l (x y : float) : is_nan x = true -> (x <? y) = false.
Proof. intros H. now rewrite ltb_spec, (Prim2SF_nan _ H). Qed.

Lemma ltb_nan_r (x y : float) : is_nan y = true -> (x <? y) = false.
Proof.
  intros H. rewrite ltb_spec, (Prim2SF_nan _ H). now destruct (Prim2SF x).
Qed.

Lemma at_threshold_or_nan_not_below (m : string * float * float) :
  at_threshold_or_nan m = true -> below m = false.
Proof.
  destruct m as [[label value] threshold]. simpl. intros H.
  apply orb_true_iff in H. destruct H as [H|H].
  - apply orb_true_iff in H. destruct H as [H|H].
    + apply Leibniz.eqb_spec in H. subst. apply ltb_irrefl.
    + now apply ltb_nan_l.
  - now apply ltb_nan_r.
Qed.

(** *** More on lists *)

Lemma filter_nil_existsb {A} (f : A -> bool) (l : list A) :
  existsb f l = false -> filter f l = [].
Proof.
  induction l as [|x l IH]; simpl; [reflexivity|].
  destruct (f x); simpl; [discriminate|exact IH].
Qed.

Lemma filter_cons_existsb {A} (f : A -> bool) (l : list A) :
  existsb f l = true -> exists x l', filter f l = x :: l'.
Proof.
  induction l as [|x l IH]; simpl; [discriminate|].
  destruct (f x); simpl; [now do 2 eexists|exact IH].
Qed.

Lemma filter_length_bound {A} (f : A -> bool) (l : list A) :
  List.length (filter f l) <= List.length l.
Proof.
  induction l as [|x l IH]; simpl; [lia|]. destruct (f x); simpl; lia.
Qed.

(** *** More on the fetcher *)

Lemma fetch_events_with_address (custom : option string) (ag : agent_outcome) :
  truthy (py_or custom provider_address) = true ->
  events (get_provider_monitor_data custom ag)
  = [AgentRun (task (py_or custom provider_address))].
Proof.
  intros H. destruct ag as [e|r].
  - now rewrite (fetch_agent_raises _ e H).
  - destruct (truthy r) eqn:Hr.
    + destruct (model_validate_json (str_opt r)) as [d'|pe] eqn:Hv.
      * now rewrite (fetch_validated _ _ _ H Hr Hv).
      * now rewrite (fetch_parse_error _ _ _ H Hr Hv).
    + now rewrite (fetch_no_result _ _ H Hr).
Qed.

(** The address in effect is the argument when it is truthy. *)
Lemma py_or_truthy (a b : option string) : truthy a = true -> py_or a b = a.
Proof. unfold py_or. now intros ->. Qed.

(** The task names the page of the address. *)
Lemma task_names_the_page (address : option string) :
  exists rest,
    task address
    = nl ++ "          Navigate to '" ++ provider_url (str_opt address)
        ++ "' and return availability and success rates." ++ rest.
Proof.
  eexists. unfold task, provider_url. cbn [join].
  rewrite !append_assoc. reflexivity.
Qed.

(** With the thresholds read, a check is the fetch followed by log records
    and at most one post. *)
Lemma check_provider_data_events_parsed (custom : option string) (c : cycle)
    (thresholds : dict) :
  outcome get_thresholds = Ok thresholds ->
  exists rest,
    events (check_provider_data custom c)
    = (events (get_provider_monitor_data custom (agent_result c)) ++ rest)%list
    /\ agent_runs rest = [].
Proof.
  intros Ht.
  destruct (check_provider_data_events custom c) as [Hnil | (rest & Hev & Ha & _)].
  - exfalso.
    destruct (get_provider_monitor_data custom (agent_result c)) as [[d|e] evs] eqn:Hf.
    + destruct (get_thresholds_shape _ Ht) as (ts & -> & _).
      rewrite (check_provider_data_fetched _ _ _ _ _ Ht Hf) in Hnil.
      simpl in Hnil. now destruct evs.
    + rewrite (check_provider_data_fetch_failed _ _ _ _ _ Ht Hf) in Hnil.
      simpl in Hnil. now destruct evs.
  - now exists rest.
Qed.

(** ** Further properties of the code *)

(** X1: the dictionary that [get_thresholds] returns has the keys of
    [DEFAULT_THRESHOLDS], in their order, so none of the lookups of the
    evaluation raises [KeyError]: for every snapshot the evaluation returns
    a list of at most six lines and leaves no event. *)
Theorem evaluation_finds_every_key (thresholds : dict) (d : WebpageInfo) :
  outcome get_thresholds = Ok thresholds ->
  map fst thresholds = map fst DEFAULT_THRESHOLDS
  /\ exists alerts,
       evaluate d thresholds = (Ok alerts, []) /\ List.length alerts <= 6.
Proof.
  intros Ht. destruct (get_thresholds_shape _ Ht) as (ts & -> & _).
  split; [reflexivity|].
  exists (violations d ts). split; [apply evaluate_violations|].
  unfold violations. rewrite length_map.
  apply (Nat.le_trans _ _ _ (filter_length_bound below (metrics_in_order d ts))).
  simpl. lia.
Qed.

(** X2: when the agent ends without a final result, [None] or the empty
    text, the fetcher fails after the one agent run with the error of line
    103 around the message of line 101; the answer is not parsed. *)
Theorem fetch_without_final_result (custom r : option string) :
  truthy custom = true \/ truthy provider_address = true ->
  r = None \/ r = Some "" ->
  get_provider_monitor_data custom (AgentFinal r)
  = (Raise (PyExn "Exception"
              ("An error occurred while getting provider data: "
                 ++ "No result was returned from the agent")),
     [AgentRun (task (py_or custom provider_address))]).
Proof.
  intros Ha Hr. apply fetch_no_result.
  - rewrite truthy_py_or. destruct Ha as [-> | ->]; [reflexivity|apply orb_true_r].
  - now apply truthy_false.
Qed.

(** X3: the fetcher opens no browser session without an address, and
    exactly one with an address, whose task asks for the page
    [https://{network}-systems-explorer.flare.network/providers/ftso/{address}]
    of the address in effect: the argument when it is truthy, the value of
    PROVIDER_ADDRESS otherwise. *)
Theorem fetch_visits_the_provider_page (custom : option string) (ag : agent_outcome) :
  (truthy custom = false -> truthy provider_address = false ->
     events (get_provider_monitor_data custom ag) = [])
  /\ (truthy custom = true ->
      exists rest,
        events (get_provider_monitor_data custom ag)
        = [AgentRun (nl ++ "          Navigate to '" ++ provider_url (str_opt custom)
                       ++ "' and return availability and success rates." ++ rest)])
  /\ (truthy custom = false -> truthy provider_address = true ->
      exists rest,
        events (get_provider_monitor_data custom ag)
        = [AgentRun (nl ++ "          Navigate to '"
                       ++ provider_url (str_opt provider_address)
                       ++ "' and return availability and success rates." ++ rest)]).
Proof.
  split.
  { intros Hc Hp. rewrite fetch_no_address; [reflexivity|].
    now rewrite truthy_py_or, Hc, Hp. }
  split.
  { intros Hc. destruct (task_names_the_page custom) as [rest Hrest].
    exists rest. rewrite fetch_events_with_address.
    - now rewrite (py_or_truthy _ _ Hc), Hrest.
    - now rewrite truthy_py_or, Hc. }
  intros Hc Hp. destruct (task_names_the_page provider_address) as [rest Hrest].
  exists rest. rewrite fetch_events_with_address.
  - now rewrite (py_or_falsy _ _ Hc), Hrest.
  - rewrite truthy_py_or, Hc, Hp. reflexivity.
Qed.

(** X4: after a successful fetch the alert text names the address that was
    fetched, which is a non-empty text: the fallback to the word Unknown of
    line 102 is never what an alert shows in place of an address. *)
Theorem alert_names_the_fetched_address (custom : option string) (ag : agent_outcome)
    (d : WebpageInfo) (alerts : list string) (now : string) :
  outcome (get_provider_monitor_data custom ag) = Ok d ->
  truthy (py_or custom provider_address) = true
  /\ events (get_provider_monitor_data custom ag)
     = [AgentRun (task (py_or custom provider_address))]
  /\ alert_message custom alerts now
     = "*FLARE PROVIDER ALERT*" ++ nl ++ nl ++ "Provider: " ++ backquote
         ++ str_opt (py_or custom provider_address)
         ++ backquote ++ nl ++ nl ++ join nl alerts
         ++ nl ++ nl ++ "_Timestamp: " ++ now ++ "_".
Proof.
  intros Hd. destruct (fetch_Ok_inv _ _ _ Hd) as (s & _ & _ & _ & Ha).
  split; [exact Ha|]. split; [now apply fetch_events_with_address|].
  unfold alert_message. rewrite !append_assoc.
  replace (py_or custom (Some (getenv_default env "PROVIDER_ADDRESS" "Unknown")))
    with (py_or custom provider_address); [reflexivity|].
  destruct (truthy custom) eqn:Hc.
  - now rewrite !(py_or_truthy _ _ Hc).
  - rewrite !(py_or_falsy _ _ Hc). rewrite (py_or_falsy _ _ Hc) in Ha.
    unfold provider_address, getenv_default in *.
    now destruct (getenv env "PROVIDER_ADDRESS").
Qed.

(** X5: one check opens at most one browser session, makes at most one
    HTTP post and never sleeps, whatever the agent, the validator and
    Telegram answer. *)
Theorem one_session_and_one_post_per_check (custom : option string) (c : cycle) :
  List.length (agent_runs (events (check_provider_data custom c))) <= 1
  /\ List.length (posts (events (check_provider_data custom c))) <= 1
  /\ slept (events (check_provider_data custom c)) = [].
Proof.
  destruct (check_provider_data_counts custom c) as (Ha & Hp & _).
  split; [exact Ha|]. split; [exact Hp|]. apply check_provider_data_no_sleep.
Qed.

(** X6: when the bot token or the chat identifier is absent or empty, the
    whole process makes no network call: not at its start, not in any pass
    of the loop. *)
Theorem no_post_without_credentials (startup_post : post_outcome)
    (cycles : nat -> cycle) (fuel : nat) :
  truthy TELEGRAM_BOT_TOKEN = false \/ truthy TELEGRAM_CHAT_ID = false ->
  posts (events (main startup_post cycles fuel)) = [].
Proof.
  intros H.
  assert (Hc : configured = false).
  { unfold configured. destruct H as [-> | ->]; [reflexivity|apply andb_false_r]. }
  destruct (outcome monitoring_interval) as [interval|e] eqn:Hi.
  - destruct (truthy (getenv env "PROVIDER_ADDRESS")) eqn:Ha.
    + rewrite (main_of_monitor_loop _ _ _ _ _
                 (monitor_loop_runs startup_post cycles fuel _ Hi Ha)).
      unfold events at 1. cbn [snd]. rewrite posts_app.
      destruct (while_true_counts interval (getenv env "PROVIDER_ADDRESS") cycles fuel 0)
        as (_ & _ & _ & _ & Hw).
      now rewrite (Hw Hc).
    + rewrite (main_of_monitor_loop _ _ _ _ _
                 (monitor_loop_no_address startup_post cycles fuel _ Hi Ha)).
      unfold events at 1. cbn [snd].
      change (posts (Log ERROR missing_address_message
                       :: events (send_telegram_alert (error_alert missing_address_message)
                                    startup_post)))
        with (posts (events (send_telegram_alert (error_alert missing_address_message)
                               startup_post))).
      now rewrite (proj1 (send_telegram_alert_posts _ _)), Hc.
  - now rewrite (main_interval_raises _ _ _ _ Hi).
Qed.

(** X7: in any number of passes the loop opens at most that many browser
    sessions, makes at most that many posts and sleeps at most that many
    times: one check, and so at most one alert, per pass. *)
Theorem loop_activity_is_bounded (interval : Z) (pa : option string)
    (cycles : nat -> cycle) (fuel k : nat) :
  List.length (agent_runs (events (while_true interval pa cycles k fuel))) <= fuel
  /\ List.length (posts (events (while_true interval pa cycles k fuel))) <= fuel
  /\ List.length (slept (events (while_true interval pa cycles k fuel))) <= fuel.
Proof.
  destruct (while_true_counts interval pa cycles fuel k) as (H1 & H2 & H3 & _).
  now repeat split.
Qed.

(** X8: every duration the loop passes to [asyncio.sleep] is strictly
    positive: it is the 60 of the handler or a sleep time that passed the
    test of line 141, never zero, negative or not a number. *)
Theorem loop_sleeps_are_positive (interval : Z) (pa : option string)
    (cycles : nat -> cycle) (fuel k : nat) :
  Forall (fun seconds => (0 <? seconds) = true)
    (slept (events (while_true interval pa cycles k fuel))).
Proof.
  now destruct (while_true_counts interval pa cycles fuel k) as (_ & _ & _ & H & _).
Qed.

Lemma iteration_agent_runs (interval : Z) (pa : option string) (c : cycle)
    (thresholds : dict) :
  truthy pa = true -> outcome get_thresholds = Ok thresholds ->
  agent_runs (events (iteration interval pa c)) = [AgentRun (task pa)].
Proof.
  intros Hpa Ht.
  destruct (iteration_events interval pa c) as (tail & -> & Ha & _).
  destruct (check_provider_data_events_parsed pa c _ Ht) as (rest & -> & Hr).
  rewrite !agent_runs_app, Ha, Hr, !app_nil_r, fetch_agent_runs.
  rewrite fetch_events_with_address; [now rewrite (py_or_truthy _ _ Hpa)|].
  now rewrite truthy_py_or, Hpa.
Qed.

(** X9: with an address and thresholds that parse, every pass of the loop
    runs the agent exactly once, on the page of that address: the fetcher
    is never reached without an address, and no pass is skipped. *)
Theorem one_fetch_per_pass (interval : Z) (pa : option string) (cycles : nat -> cycle)
    (fuel k : nat) (thresholds : dict) :
  truthy pa = true -> outcome get_thresholds = Ok thresholds ->
  agent_runs (events (while_true interval pa cycles k fuel))
  = repeat (AgentRun (task pa)) fuel.
Proof.
  intros Hpa Ht. revert k. induction fuel as [|fuel IH]; intros k.
  - reflexivity.
  - rewrite while_true_unfold, agent_runs_app, (iteration_agent_runs _ _ _ _ Hpa Ht), IH.
    reflexivity.
Qed.

(** X10: a metric that equals its threshold is not a violation, and neither
    is a metric that is not a number or one whose threshold is not a number:
    the comparison of the code is strict and false on NaN.  A snapshot made
    of such metrics only yields no line. *)
Theorem no_violation_at_threshold_or_nan (d : WebpageInfo) (ts : ThresholdSet) :
  forallb at_threshold_or_nan (metrics_in_order d ts) = true ->
  violations d ts = [] /\ evaluate d (dict_of_thresholds ts) = (Ok [], []).
Proof.
  intros H.
  assert (Hv : violations d ts = []).
  { unfold violations.
    replace (filter below (metrics_in_order d ts)) with (@nil (string * float * float));
      [reflexivity|].
    symmetry. apply forallb_filter_none. intros m Hm.
    rewrite forallb_forall in H. now apply at_threshold_or_nan_not_below, H. }
  split; [exact Hv|]. now rewrite evaluate_violations, Hv.
Qed.

(** X11: with both credentials set, a check whose fetch succeeds posts
    exactly when at least one of the six metrics is strictly below its
    threshold, and then it posts once, the alert with all the lines. *)
Theorem alert_exactly_when_a_metric_is_below (custom : option string) (c : cycle)
    (ts : ThresholdSet) (d : WebpageInfo) (evs : list event) :
  truthy TELEGRAM_BOT_TOKEN = true -> truthy TELEGRAM_CHAT_ID = true ->
  outcome get_thresholds = Ok (dict_of_thresholds ts) ->
  get_provider_monitor_data custom (agent_result c) = (Ok d, evs) ->
  posts (events (check_provider_data custom c))
  = (if existsb below (metrics_in_order d ts)
     then [HttpPost telegram_url
             (telegram_payload (alert_message custom (violations d ts) (now c))) 10]
     else []).
Proof.
  intros Htok Hchat Ht Hf.
  assert (Hc : configured = true) by (unfold configured; now rewrite Htok, Hchat).
  rewrite (check_provider_data_fetched _ _ _ _ _ Ht Hf).
  unfold events at 1. cbn [snd]. rewrite posts_app.
  replace (posts evs)
    with (posts (events (get_provider_monitor_data custom (agent_result c))))
    by now rewrite Hf.
  rewrite (proj1 (fetch_quiet _ _)). cbn [app].
  change (posts (Log INFO ("Provider data retrieved successfully: " ++ str_WebpageInfo d)
                   :: dispatch_events custom c (violations d ts)))
    with (posts (dispatch_events custom c (violations d ts))).
  unfold dispatch_events, violations at 1.
  destruct (existsb below (metrics_in_order d ts)) eqn:He.
  - destruct (filter_cons_existsb _ _ He) as (m & l & Hfl). rewrite Hfl.
    cbn [map]. rewrite posts_app, (proj1 (send_telegram_alert_posts _ _)), Hc.
    unfold violations. now rewrite Hfl.
  - now rewrite (filter_nil_existsb _ _ He).
Qed.

(** X13: [main] of agent.py never propagates an exception and runs the
    fetcher once, without a custom address.  On success it prints the
    heading and the four metrics; on a failure it prints one line with the
    message, which without PROVIDER_ADDRESS is the message of line 42, and
    then no browser session was opened. *)
Theorem agent_main_prints_and_returns (ag : agent_outcome) :
  events (agent_main ag) = events (get_provider_monitor_data None ag)
  /\ (forall d,
        outcome (get_provider_monitor_data None ag) = Ok d ->
        outcome (agent_main ag)
        = Ok [ nl ++ "Scraping Results (structured):";
               "Availability 6h: " ++ str_float (availability_6h d);
               "Availability 24h: " ++ str_float (availability_24h d);
               "Success Rate 6h: " ++ str_RewardEpochInfo (success_rate_6h d);
               "Success Rate 24h: " ++ str_RewardEpochInfo (success_rate_24h d) ])
  /\ (forall e,
        outcome (get_provider_monitor_data None ag) = Raise e ->
        outcome (agent_main ag) = Ok ["An error occurred: " ++ str_exn e])
  /\ (truthy provider_address = false ->
      agent_main ag
      = (Ok ["An error occurred: Provider address not provided and "
               ++ "PROVIDER_ADDRESS not set in environment"], [])).
Proof.
  unfold agent_main.
  split; [|split; [|split]].
  - destruct (get_provider_monitor_data None ag) as [[d|e] evs]; simpl;
      now rewrite app_nil_r.
  - intros d. destruct (get_provider_monitor_data None ag) as [[d'|e] evs]; simpl;
      [|discriminate]. intros [= ->]. reflexivity.
  - intros e. destruct (get_provider_monitor_data None ag) as [[d'|e'] evs]; simpl;
      [discriminate|]. intros [= ->]. reflexivity.
  - intros Hp. rewrite fetch_no_address; [reflexivity|].
    now rewrite truthy_py_or, Hp.
Qed.

End Monitor.

Lemma get_thresholds_from_agree (py_float : string -> result float) (env env' : environ)
    (items acc : dict) :
  Forall (fun item => getenv env (upper (fst item)) = getenv env' (upper (fst item)))
    items ->
  get_thresholds_from py_float env items acc = get_thresholds_from py_float env' items acc.
Proof.
  intros H. revert acc. induction H as [|[key dflt] items Hk _ IH]; intros acc.
  - reflexivity.
  - rewrite !get_thresholds_from_step. unfold threshold_value. simpl in *.
    rewrite Hk. destruct (truthy (getenv env' (upper key))).
    + destruct (py_float _); [apply IH|reflexivity].
    + apply IH.
Qed.

(** X12: [get_thresholds] reads the six variables named after the keys of
    [DEFAULT_THRESHOLDS] and nothing else: two environments that agree on
    them give the same thresholds, or the same error. *)
Theorem get_thresholds_reads_six_variables (py_float : string -> result float)
    (env env' : environ) :
  Forall (fun item => getenv env (upper (fst item)) = getenv env' (upper (fst item)))
    DEFAULT_THRESHOLDS ->
  get_thresholds py_float env = get_thresholds py_float env'.
Proof. apply get_thresholds_from_agree. Qed.

(** ** The embedding on the sample inputs *)

(** The example of the specification: with the default thresholds and a
    6h availability of 85.0, exactly one line, about 6h Availability. *)
Example one_violation_for_low_6h_availability :
  violations PyRef.str_float
    {| availability_6h := 85.0;
       availability_24h := 99.25;
       success_rate_6h := {| primary := 48.75; secondary := 95.875 |};
       success_rate_24h := {| primary := 46.5; secondary := 95.75 |} |}
    Sample.default_thresholds
  = [warning_sign ++ " 6h Availability is low: 85.0% (threshold: 90.0%)"].
Proof. vm_compute. reflexivity. Qed.

(** Without overrides the thresholds are the defaults. *)
Example default_thresholds_without_overrides :
  get_thresholds PyRef.py_float Sample.env
  = (Ok (dict_of_thresholds Sample.default_thresholds), []).
Proof. vm_compute. reflexivity. Qed.

(** An override that parses replaces its default. *)
Example override_of_one_threshold :
  outcome (bind (get_thresholds PyRef.py_float
                   (("MIN_AVAILABILITY_6H", "95.5") :: Sample.env))
             (fun d => dict_get d "min_availability_6h"))
  = Ok 95.5.
Proof. vm_compute. reflexivity. Qed.

(** A degraded reading: two lines, in the order of the fields, and one post
    whose text carries them. *)
Example degraded_reading_is_reported :
  outcome (check_provider_data PyRef.py_float PyRef.str_float Sample.model_validate_json
             Sample.env (Some Sample.address) Sample.cycle_degraded)
  = Ok (Some Sample.degraded,
        [warning_sign ++ " 6h Availability is low: 85.0% (threshold: 90.0%)";
         warning_sign ++ " 24h Secondary Success Rate is low: 80.5% (threshold: 85.0%)"])
  /\ map text_of_post
       (posts (events (check_provider_data PyRef.py_float PyRef.str_float
                         Sample.model_validate_json Sample.env (Some Sample.address)
                         Sample.cycle_degraded)))
     = ["*FLARE PROVIDER ALERT*" ++ nl ++ nl ++ "Provider: `0x5A7b2c9D`" ++ nl ++ nl
          ++ warning_sign ++ " 6h Availability is low: 85.0% (threshold: 90.0%)" ++ nl
          ++ warning_sign ++ " 24h Secondary Success Rate is low: 80.5% (threshold: 85.0%)"
          ++ nl ++ nl ++ "_Timestamp: 2025-03-01 12:00:00_"].
Proof. split; vm_compute; reflexivity. Qed.

(** A text that is no document is reported as a parse failure. *)
Example garbled_answer_is_a_parse_error :
  get_provider_monitor_data Sample.model_validate_json Sample.env (Some Sample.address)
    (agent_result Sample.cycle_garbled)
  = (Raise (PyExn "Exception"
              ("An error occurred while getting provider data: Error parsing result: "
                 ++ "1 validation error for WebpageInfo. Raw result: "
                 ++ "I could not find the page")),
     [AgentRun (task Sample.env (Some Sample.address))]).
Proof. vm_compute. reflexivity. Qed.

(** Without the bot token nothing is posted. *)
Example no_post_without_bot_token :
  send_telegram_alert Sample.env_no_token "alert" (PostResponse 200 "OK")
  = (Ok false,
     [Log WARNING "Telegram bot token or chat ID not configured. Cannot send alert."]).
Proof. vm_compute. reflexivity. Qed.

(** A pass that took 950 seconds of an interval of 900 does not sleep. *)
Example slow_cycle_does_not_sleep :
  slept (events (iteration PyRef.py_float PyRef.str_float PyRef.fmt_2f
                   Sample.model_validate_json Sample.env 900 (Some Sample.address)
                   Sample.cycle_slow))
  = [].
Proof. vm_compute. reflexivity. Qed.

(** An interval beyond the range of floats: the subtraction of line 139
    raises, and the pass ends in the handler of the loop. *)
Example huge_interval_falls_back :
  slept (events (iteration PyRef.py_float PyRef.str_float PyRef.fmt_2f
                   Sample.model_validate_json Sample.env (2 ^ 1024) (Some Sample.address)
                   Sample.cycle_healthy))
  = [60].
Proof. vm_compute. reflexivity. Qed.

(** Three passes of the loop on healthy readings: still running, three
    sleeps of 800 seconds. *)
Example three_passes :
  outcome (main PyRef.py_float PyRef.py_int PyRef.str_float PyRef.fmt_2f
             Sample.model_validate_json Sample.env (PostResponse 200 "OK")
             (fun _ => Sample.cycle_healthy) 3)
  = Ok Running
  /\ slept (events (main PyRef.py_float PyRef.py_int PyRef.str_float PyRef.fmt_2f
                      Sample.model_validate_json Sample.env (PostResponse 200 "OK")
                      (fun _ => Sample.cycle_healthy) 3))
     = [800; 800; 800].
Proof. split; vm_compute; reflexivity. Qed.

(** ** Witnesses and counterexamples *)

(** The healthy sample is above every default threshold: no violation, no
    post. *)
Lemma healthy_sample_has_no_violation :
  forallb above (metrics_in_order Sample.healthy Sample.default_thresholds) = true
  /\ violations PyRef.str_float Sample.healthy Sample.default_thresholds = []
  /\ evaluate PyRef.str_float Sample.healthy (dict_of_thresholds Sample.default_thresholds)
     = (Ok [], [])
  /\ (forall custom c evs,
        outcome (get_thresholds PyRef.py_float Sample.env)
        = Ok (dict_of_thresholds Sample.default_thresholds) ->
        get_provider_monitor_data Sample.model_validate_json Sample.env custom
          (agent_result c) = (Ok Sample.healthy, evs) ->
        outcome (check_provider_data PyRef.py_float PyRef.str_float
                   Sample.model_validate_json Sample.env custom c)
        = Ok (Some Sample.healthy, [])
        /\ posts (events (check_provider_data PyRef.py_float PyRef.str_float
                            Sample.model_validate_json Sample.env custom c)) = []).
Proof.
  split; [reflexivity|].
  apply no_violation_above_thresholds. reflexivity.
Defined.

(** The healthy cycle, fetched in 100 seconds of an interval of 900, is a
    successful cycle and sleeps [max(0, 900 - 100)] seconds. *)
Lemma healthy_cycle_sleeps_the_remainder :
  let c := Sample.cycle_healthy in
  let body :=
    loop_body PyRef.py_float PyRef.str_float PyRef.fmt_2f Sample.model_validate_json
      Sample.env 900 (Some Sample.address) c in
  body = (Ok tt, events body)
  /\ ((exists fi s,
         float_of_int 900 = (Ok fi, [])
         /\ sleep_time 900 (t_end c - t_start c) = (Ok s, [])
         /\ s = py_max 0 (fi - (t_end c - t_start c))
         /\ (s = 0 \/ s = fi - (t_end c - t_start c))
         /\ (s <? fi - (t_end c - t_start c)) = false
         /\ (s <? 0) = false
         /\ (0 <=? s) = true
         /\ slept (events body) = (if 0 <? s then [s] else []))
      /\ sleep_time 900 100 = (Ok 800, [])
      /\ sleep_time 900 950 = (Ok 0, [])).
Proof.
  intros c body. split.
  - vm_compute. reflexivity.
  - apply (sleep_time_after_successful_cycle PyRef.py_float PyRef.str_float PyRef.fmt_2f
             Sample.model_validate_json Sample.env 900 (Some Sample.address) c).
    vm_compute. reflexivity.
Defined.

(** Against C4: the agent fails, the check dispatches the error alert, and
    the loop then sleeps the 800 seconds that remain of the interval, not 60;
    and when a threshold override does not parse, the failure that reaches
    the loop is followed by the sleep of 60 seconds and by no alert. *)
Lemma fetcher_failure_waits_for_the_interval :
  outcome (get_provider_monitor_data Sample.model_validate_json Sample.env
             (Some Sample.address) (agent_result Sample.cycle_agent_down))
  = Raise (PyExn "Exception"
             "An error occurred while getting provider data: Navigation timed out")
  /\ map text_of_post
       (posts (events (iteration PyRef.py_float PyRef.str_float PyRef.fmt_2f
                         Sample.model_validate_json Sample.env 900 (Some Sample.address)
                         Sample.cycle_agent_down)))
     = ["*FLARE PROVIDER MONITOR ERROR*" ++ nl ++ nl
          ++ "Error checking provider data: "
          ++ "An error occurred while getting provider data: Navigation timed out"]
  /\ slept (events (iteration PyRef.py_float PyRef.str_float PyRef.fmt_2f
                      Sample.model_validate_json Sample.env 900 (Some Sample.address)
                      Sample.cycle_agent_down))
     = [800]
  /\ iteration PyRef.py_float PyRef.str_float PyRef.fmt_2f Sample.model_validate_json
       (("MIN_AVAILABILITY_6H", "abc") :: Sample.env) 900 (Some Sample.address)
       Sample.cycle_healthy
     = (Ok tt,
        [Log ERROR "Error in monitor loop: could not convert string to float: 'abc'";
         Sleep 60]).
Proof. repeat split; vm_compute; reflexivity. Qed.

(** Against C6: a response with status 304 is not a 2xx response, and the
    dispatcher reports success. *)
Lemma status_304_counts_as_delivered :
  send_telegram_alert Sample.env "alert" (PostResponse 304 "Not Modified")
  = (Ok true,
     [HttpPost "https://api.telegram.org/bot4815162342:token/sendMessage"
        {| chat_id := "-100200300"; text := "alert"; parse_mode := "Markdown" |} 10;
      Log INFO "Telegram alert sent successfully: alert"]).
Proof. vm_compute. reflexivity. Qed.

(** Against C7: a threshold override that is no number makes
    [get_thresholds] raise instead of giving the default 90.0, and an
    interval written as a float is refused by [int] instead of being parsed
    as a float or replaced by 900. *)
Lemma unparsable_values_raise :
  get_thresholds PyRef.py_float (("MIN_AVAILABILITY_6H", "abc") :: Sample.env)
  = (Raise (PyExn "ValueError" "could not convert string to float: 'abc'"), [])
  /\ monitoring_interval PyRef.py_int (("MONITORING_INTERVAL", "1.5") :: Sample.env)
     = (Raise (PyExn "ValueError" "invalid literal for int() with base 10: '1.5'"), []).
Proof. split; vm_compute; reflexivity. Qed.

(** Against C8: without PROVIDER_ADDRESS the process logs the error, posts
    the alert and returns before any pass of the loop, with no interruption. *)
Lemma missing_address_ends_the_process :
  main PyRef.py_float PyRef.py_int PyRef.str_float PyRef.fmt_2f Sample.model_validate_json
    Sample.env_no_address (PostResponse 200 "OK") (fun _ => Sample.cycle_healthy) 3
  = (Ok Returned,
     [Log ERROR "PROVIDER_ADDRESS environment variable is not set!";
      HttpPost "https://api.telegram.org/bot4815162342:token/sendMessage"
        {| chat_id := "-100200300";
           text := "*FLARE PROVIDER MONITOR ERROR*" ++ nl ++ nl
                     ++ "PROVIDER_ADDRESS environment variable is not set!";
           parse_mode := "Markdown" |} 10;
      Log INFO ("Telegram alert sent successfully: *FLARE PROVIDER MONITOR ERROR*"
                  ++ nl ++ nl ++ "PROVIDER_ADDRESS environment variable is not set!")]).
Proof. vm_compute. reflexivity. Qed.

(** Against C9: with a threshold override that is no number,
    [check_provider_data] propagates the [ValueError] of [float] to its
    caller, before any agent run. *)
Lemma unparsable_threshold_propagates :
  check_provider_data PyRef.py_float PyRef.str_float Sample.model_validate_json
    (("MIN_AVAILABILITY_6H", "abc") :: Sample.env) (Some Sample.address)
    Sample.cycle_healthy
  = (Raise (PyExn "ValueError" "could not convert string to float: 'abc'"), []).
Proof. vm_compute. reflexivity. Qed.

(** ** Witnesses of the further properties *)

(** The thresholds of the sample environment are the defaults, and the
    degraded sample is evaluated against them. *)
Lemma evaluation_on_default_thresholds :
  outcome (get_thresholds PyRef.py_float Sample.env)
  = Ok (dict_of_thresholds Sample.default_thresholds)
  /\ (map fst (dict_of_thresholds Sample.default_thresholds) = map fst DEFAULT_THRESHOLDS
      /\ exists alerts,
           evaluate PyRef.str_float Sample.degraded
             (dict_of_thresholds Sample.default_thresholds) = (Ok alerts, [])
           /\ List.length alerts <= 6).
Proof.
  split; [vm_compute; reflexivity|].
  apply (evaluation_finds_every_key PyRef.py_float PyRef.str_float Sample.env).
  vm_compute. reflexivity.
Defined.

(** The agent of the sample environment ends without a result. *)
Lemma sample_fetch_without_final_result :
  (truthy None = true \/ truthy (provider_address Sample.env) = true)
  /\ (@None string = None \/ @None string = Some "")
  /\ get_provider_monitor_data Sample.model_validate_json Sample.env None (AgentFinal None)
     = (Raise (PyExn "Exception"
                 ("An error occurred while getting provider data: "
                    ++ "No result was returned from the agent")),
        [AgentRun (task Sample.env (py_or None (provider_address Sample.env)))]).
Proof.
  split; [right; reflexivity|]. split; [left; reflexivity|].
  apply fetch_without_final_result; [right; reflexivity|left; reflexivity].
Defined.

(** The degraded sample is fetched without a custom address: the alert
    names the address of the environment. *)
Lemma sample_alert_names_the_address :
  outcome (get_provider_monitor_data Sample.model_validate_json Sample.env None
             (agent_result Sample.cycle_degraded))
  = Ok Sample.degraded
  /\ (truthy (py_or None (provider_address Sample.env)) = true
      /\ events (get_provider_monitor_data Sample.model_validate_json Sample.env None
                   (agent_result Sample.cycle_degraded))
         = [AgentRun (task Sample.env (py_or None (provider_address Sample.env)))]
      /\ alert_message Sample.env None ["line"] "2025-03-01 12:00:00"
         = "*FLARE PROVIDER ALERT*" ++ nl ++ nl ++ "Provider: " ++ backquote
             ++ str_opt (py_or None (provider_address Sample.env))
             ++ backquote ++ nl ++ nl ++ join nl ["line"]
             ++ nl ++ nl ++ "_Timestamp: " ++ "2025-03-01 12:00:00" ++ "_").
Proof.
  split; [vm_compute; reflexivity|].
  apply (alert_names_the_fetched_address Sample.model_validate_json Sample.env None
           (agent_result Sample.cycle_degraded) Sample.degraded).
  vm_compute. reflexivity.
Defined.

(** Three passes on degraded readings without the bot token: nothing is
    posted. *)
Lemma sample_no_post_without_token :
  (truthy (TELEGRAM_BOT_TOKEN Sample.env_no_token) = false
   \/ truthy (TELEGRAM_CHAT_ID Sample.env_no_token) = false)
  /\ posts (events (main PyRef.py_float PyRef.py_int PyRef.str_float PyRef.fmt_2f
                      Sample.model_validate_json Sample.env_no_token
                      (PostResponse 200 "OK") (fun _ => Sample.cycle_degraded) 3))
     = [].
Proof.
  split; [left; reflexivity|].
  apply no_post_without_credentials. left. reflexivity.
Defined.

(** Three passes of the loop of the sample environment: three agent runs. *)
Lemma sample_one_fetch_per_pass :
  truthy (Some Sample.address) = true
  /\ outcome (get_thresholds PyRef.py_float Sample.env)
     = Ok (dict_of_thresholds Sample.default_thresholds)
  /\ agent_runs (events (while_true PyRef.py_float PyRef.str_float PyRef.fmt_2f
                           Sample.model_validate_json Sample.env 900
                           (Some Sample.address) (fun _ => Sample.cycle_agent_down) 0 3))
     = repeat (AgentRun (task Sample.env (Some Sample.address))) 3.
Proof.
  split; [reflexivity|]. split; [vm_compute; reflexivity|].
  apply (one_fetch_per_pass PyRef.py_float PyRef.str_float PyRef.fmt_2f
           Sample.model_validate_json Sample.env 900 (Some Sample.address)
           (fun _ => Sample.cycle_agent_down) 3 0
           (dict_of_thresholds Sample.default_thresholds)).
  - reflexivity.
  - vm_compute. reflexivity.
Defined.

(** A snapshot with one metric at its threshold, one that is not a number
    and the others at their thresholds too. *)
Lemma sample_at_threshold_or_nan :
  let d :=
    {| availability_6h := 90.0;
       availability_24h := nan;
       success_rate_6h := {| primary := 20.0; secondary := 85.0 |};
       success_rate_24h := {| primary := 20.0; secondary := 85.0 |} |} in
  forallb at_threshold_or_nan (metrics_in_order d Sample.default_thresholds) = true
  /\ violations PyRef.str_float d Sample.default_thresholds = []
  /\ evaluate PyRef.str_float d (dict_of_thresholds Sample.default_thresholds) = (Ok [], []).
Proof.
  intros d. split; [vm_compute; reflexivity|].
  apply no_violation_at_threshold_or_nan. vm_compute. reflexivity.
Defined.

(** The degraded sample with both credentials: one post, the alert. *)
Lemma sample_alert_when_below :
  let c := Sample.cycle_degraded in
  let check :=
    check_provider_data PyRef.py_float PyRef.str_float Sample.model_validate_json
      Sample.env (Some Sample.address) c in
  truthy (TELEGRAM_BOT_TOKEN Sample.env) = true
  /\ truthy (TELEGRAM_CHAT_ID Sample.env) = true
  /\ outcome (get_thresholds PyRef.py_float Sample.env)
     = Ok (dict_of_thresholds Sample.default_thresholds)
  /\ get_provider_monitor_data Sample.model_validate_json Sample.env (Some Sample.address)
       (agent_result c)
     = (Ok Sample.degraded, [AgentRun (task Sample.env (Some Sample.address))])
  /\ posts (events check)
     = (if existsb below (metrics_in_order Sample.degraded Sample.default_thresholds)
        then [HttpPost (telegram_url Sample.env)
                (telegram_payload Sample.env
                   (alert_message Sample.env (Some Sample.address)
                      (violations PyRef.str_float Sample.degraded Sample.default_thresholds)
                      (now c))) 10]
        else []).
Proof.
  intros c check.
  split; [reflexivity|]. split; [reflexivity|].
  split; [vm_compute; reflexivity|]. split; [vm_compute; reflexivity|].
  apply (alert_exactly_when_a_metric_is_below PyRef.py_float PyRef.str_float
           Sample.model_validate_json Sample.env (Some Sample.address) c
           Sample.default_thresholds Sample.degraded
           [AgentRun (task Sample.env (Some Sample.address))]).
  - reflexivity.
  - reflexivity.
  - vm_compute. reflexivity.
  - vm_compute. reflexivity.
Defined.

(** A variable that is not one of the six changes nothing. *)
Lemma sample_unrelated_variable :
  Forall (fun item =>
            getenv Sample.env (upper (fst item))
            = getenv (("MIN_AVAILABILITY", "1") :: Sample.env) (upper (fst item)))
    DEFAULT_THRESHOLDS
  /\ get_thresholds PyRef.py_float Sample.env
     = get_thresholds PyRef.py_float (("MIN_AVAILABILITY", "1") :: Sample.env).
Proof.
  assert (H : Forall (fun item =>
                        getenv Sample.env (upper (fst item))
                        = getenv (("MIN_AVAILABILITY", "1") :: Sample.env)
                            (upper (fst item)))
                DEFAULT_THRESHOLDS)
    by (repeat constructor).
  split; [exact H|].
  apply get_thresholds_reads_six_variables. exact H.
Defined.
